(** * TodoList: the client-side state-and-sync model of the todo component

    A shallow embedding of the richer [TodoList] component (profiles, labels,
    assignee and label filters): the React state of the component, the
    handlers that talk to the remote store, and the two derived views
    ([availableUsers], [filteredTodos]).

    - JavaScript strings are sequences of UTF-16 code units ([list N]).
    - A handler is a finite tree of effects ([prog]): awaiting a remote
      call, [alert], [console.error].  The store is an arbitrary oracle that
      answers every call, so theorems hold for every behaviour of the store.
    - A handler reads the state variables of the render it was created in
      (its closure) and writes through the setters; functional setters
      ([setTodos (prev => ...)]) apply to the pending state. *)

From Stdlib Require Import ZArith NArith Ascii String Sorted.
From stdpp Require Import base decidable option list sets gmap.

Local Open Scope Z_scope.

(** ** JavaScript strings *)

Definition jsstring : Type := list N.

(** A string literal of the source, as code units. *)
Definition js (s : string) : jsstring :=
  List.map N_of_ascii (list_ascii_of_string s).

(** ECMAScript [WhiteSpace] and [LineTerminator] code points, the
    characters that [String.prototype.trim] strips. *)
Definition is_whitespace (c : N) : bool :=
  ((9 <=? c) && (c <=? 13) (* TAB, LF, VT, FF, CR *)
   || (c =? 32) || (c =? 160) || (c =? 5760)
   || ((8192 <=? c) && (c <=? 8202))
   || (c =? 8232) || (c =? 8233) || (c =? 8239) || (c =? 8287)
   || (c =? 12288) || (c =? 65279))%N.

Fixpoint trimStart (s : jsstring) : jsstring :=
  match s with
  | c :: s' => if is_whitespace c then trimStart s' else s
  | [] => []
  end.

Definition trimEnd (s : jsstring) : jsstring := rev (trimStart (rev s)).

Definition trim (s : jsstring) : jsstring := trimEnd (trimStart s).

(** Truthiness of a string: [!s] holds exactly for the empty string. *)
Definition str_truthy (s : jsstring) : bool :=
  match s with [] => false | _ :: _ => true end.

(** ** Data model *)

Module Profile.
Record t : Type := mk { id : jsstring; name : jsstring }.
End Profile.

Module Label.
(** [created_at] is absent on labels embedded through the join
    ([labels(id, name)]). *)
Record t : Type := mk { id : jsstring; name : jsstring; created_at : option jsstring }.
End Label.

Module Todo.
Record t : Type := mk {
  id : Z;
  title : jsstring;
  description : option jsstring;
  due_date : option jsstring;
  completed : bool;
  assignee_id : jsstring;
  assignee : option Profile.t;
  labels : option (list Label.t)
}.

(** [{ ...t, completed: c }] *)
Definition with_completed (c : bool) (x : t) : t :=
  mk (id x) (title x) (description x) (due_date x) c (assignee_id x)
     (assignee x) (labels x).

(** [{ ...t, labels: ls }] *)
Definition with_labels (ls : list Label.t) (x : t) : t :=
  mk (id x) (title x) (description x) (due_date x) (completed x)
     (assignee_id x) (assignee x) (Some ls).
End Todo.

(** A row of [todo_labels] as embedded in the todo query:
    [todo_labels(label_id, labels(id, name))]. *)
Module TodoLabel.
Record t : Type := mk { label_id : jsstring; labels : option Label.t }.
End TodoLabel.

(** A row of the todo query before flattening: the todo columns, the joined
    assignee, and the nested join rows. *)
Module TodoRow.
Record t : Type := mk { todo : Todo.t; labels : option (list TodoLabel.t) }.
End TodoRow.

Record PgError : Type := { message : jsstring }.

(** The state variables of the component ([useState]). *)
Record State : Type := mkState {
  todos : list Todo.t;
  users : list Profile.t;
  labels : list Label.t;
  title : jsstring;
  description : jsstring;
  dueDate : jsstring;
  assigneeId : jsstring;
  selectedLabelIds : list jsstring;
  newLabelName : jsstring;
  editingId : option Z;
  filterUserId : jsstring;
  filterLabelIds : list jsstring;
  isLabelDropdownOpen : bool;
  isFilterLabelDropdownOpen : bool
}.

Definition update_todos (f : list Todo.t -> list Todo.t) (s : State) : State :=
  mkState (f (todos s)) (users s) (labels s) (title s) (description s)
    (dueDate s) (assigneeId s) (selectedLabelIds s) (newLabelName s)
    (editingId s) (filterUserId s) (filterLabelIds s)
    (isLabelDropdownOpen s) (isFilterLabelDropdownOpen s).

Definition update_labels (f : list Label.t -> list Label.t) (s : State) : State :=
  mkState (todos s) (users s) (f (labels s)) (title s) (description s)
    (dueDate s) (assigneeId s) (selectedLabelIds s) (newLabelName s)
    (editingId s) (filterUserId s) (filterLabelIds s)
    (isLabelDropdownOpen s) (isFilterLabelDropdownOpen s).

(** The seven setter calls of [resetForm]. *)
Definition clear_form (s : State) : State :=
  mkState (todos s) (users s) (labels s) [] [] [] [] [] [] None
    (filterUserId s) (filterLabelIds s)
    (isLabelDropdownOpen s) (isFilterLabelDropdownOpen s).

(** ** The remote store interface *)

(** The queries the handlers issue, with their arguments. *)
Inductive call : Type :=
| SelectTodos
    (* from("todos").select("*, assignee:..., labels:...").order("id", desc) *)
| InsertLabel (name : jsstring)
    (* from("labels").insert([{ name }]).select().single() *)
| UpdateTodo (id : Z) (title description due_date assignee_id : jsstring)
    (* from("todos").update({...}).eq("id", id).select() *)
| InsertTodo (title description due_date assignee_id : jsstring)
    (* from("todos").insert([{...}]).select() *)
| DeleteTodoLabels (todo_id : Z)
    (* from("todo_labels").delete().eq("todo_id", todo_id) *)
| InsertTodoLabels (rows : list (Z * jsstring))
    (* from("todo_labels").insert(rows), rows of (todo_id, label_id) *)
| UpdateTodoCompleted (id : Z) (completed : bool)
    (* from("todos").update({ completed }).eq("id", id).select("*, assignee:...") *)
| DeleteTodo (id : Z).
    (* from("todos").delete().eq("id", id) *)

(** What a query resolves to: [{ data, error }]. *)
Record result (A : Type) : Type := mkResult {
  data : option A;
  error : option PgError
}.
Arguments mkResult {A} _ _.
Arguments data {A} _.
Arguments error {A} _.

(** A query ending in [.single()] resolves to exactly one of a row and an
    error. *)
Inductive single (A : Type) : Type :=
| SingleRow (row : A)
| SingleError (e : PgError).
Arguments SingleRow {A} _.
Arguments SingleError {A} _.

Definition response (c : call) : Type :=
  match c with
  | SelectTodos => result (list TodoRow.t)
  | InsertLabel _ => single Label.t
  | UpdateTodo _ _ _ _ _ => result (list Todo.t)
  | InsertTodo _ _ _ _ => result (list Todo.t)
  | DeleteTodoLabels _ => result unit
  | InsertTodoLabels _ => result unit
  | UpdateTodoCompleted _ _ => result (list Todo.t)
  | DeleteTodo _ => result unit
  end.

(** ** Handlers as effect trees *)

Inductive prog (A : Type) : Type :=
| Ret (a : A)
| Await (c : call) (k : response c -> prog A)
| Alert (msg : jsstring) (k : prog A)
| ConsoleError (tag : jsstring) (e : PgError) (k : prog A).
Arguments Ret {A} _.
Arguments Await {A} _ _.
Arguments Alert {A} _ _.
Arguments ConsoleError {A} _ _ _.

Fixpoint pbind {A B : Type} (p : prog A) (f : A -> prog B) : prog B :=
  match p with
  | Ret a => f a
  | Await c k => Await c (fun r => pbind (k r) f)
  | Alert m k => Alert m (pbind k f)
  | ConsoleError t e k => ConsoleError t e (pbind k f)
  end.

(** A handler: effects over the pending state. *)
Definition M (A : Type) : Type := State -> prog (A * State).

Definition ret {A : Type} (a : A) : M A := fun s => Ret (a, s).

Definition bind {A B : Type} (m : M A) (f : A -> M B) : M B :=
  fun s => pbind (m s) (fun '(a, s') => f a s').

Declare Scope handler_scope.
Delimit Scope handler_scope with handler.
Notation "'let*' x ':=' c 'in' k" := (bind c (fun x => k))
  (at level 10, x pattern, c at level 100, k at level 200) : handler_scope.
Notation "c ';;' k" := (bind c (fun _ => k))
  (at level 100, k at level 200, right associativity) : handler_scope.

Definition await (c : call) : M (response c) :=
  fun s => Await c (fun r => Ret (r, s)).

Definition alert (msg : jsstring) : M unit :=
  fun s => Alert msg (Ret (tt, s)).

Definition console_error (tag : jsstring) (e : PgError) : M unit :=
  fun s => ConsoleError tag e (Ret (tt, s)).

Definition setTodos (f : list Todo.t -> list Todo.t) : M unit :=
  fun s => Ret (tt, update_todos f s).

Definition setLabels (f : list Label.t -> list Label.t) : M unit :=
  fun s => Ret (tt, update_labels f s).

(** ** Running a handler against a store *)

Inductive event : Type :=
| EvRemote (c : call)
| EvAlert (msg : jsstring)
| EvConsoleError (tag : jsstring) (e : PgError).

Definition is_remote (e : event) : bool :=
  match e with EvRemote _ => true | _ => false end.

Section Run.
(** The store: any state [R] and any way of answering calls. *)
Context {R : Type} (respond : forall c : call, R -> response c * R).

Fixpoint run {A : Type} (p : prog A) (σ : R) : A * list event * R :=
  match p with
  | Ret a => (a, [], σ)
  | Await c k =>
      let '(r, σ1) := respond c σ in
      let '(a, tr, σ2) := run (k r) σ1 in
      (a, EvRemote c :: tr, σ2)
  | Alert m k =>
      let '(a, tr, σ1) := run k σ in (a, EvAlert m :: tr, σ1)
  | ConsoleError t e k =>
      let '(a, tr, σ1) := run k σ in (a, EvConsoleError t e :: tr, σ1)
  end.

(** A user action: the handler of the current render runs on the current
    state. *)
Definition dispatch {A : Type} (h : State -> M A) (s : State) (σ : R)
  : (A * State) * list event * R :=
  run (h s s) σ.
End Run.

(** ** String built-ins that depend on the locale and on Unicode tables *)

(** [String.prototype.toLowerCase] and [String.prototype.localeCompare]
    are not defined by the repository; the handlers are parametric in
    them. *)
Class Intl : Type := {
  toLowerCase : jsstring -> jsstring;
  localeCompare : jsstring -> jsstring -> Z
}.


(** [Array.prototype.sort] with a comparator: a stable sort, here by
    insertion from the right. *)
Section Sort.
Context {A : Type} (cmp : A -> A -> Z).

Fixpoint sort_insert (x : A) (l : list A) : list A :=
  match l with
  | [] => [x]
  | y :: l' => if cmp x y <=? 0 then x :: y :: l' else y :: sort_insert x l'
  end.

Fixpoint sort (l : list A) : list A :=
  match l with
  | [] => []
  | x :: l' => sort_insert x (sort l')
  end.
End Sort.

(** ** The handlers *)

Local Open Scope handler_scope.

(** [fetchTodos]: the nested join rows are flattened to a label list;
    on an error the list is left as it is. *)
Definition flatten_labels (row : TodoRow.t) : Todo.t :=
  Todo.with_labels
    (match TodoRow.labels row with
     | Some tls => omap TodoLabel.labels tls
     | None => []
     end)
    (TodoRow.todo row).

Definition fetchTodos : M unit :=
  let* r := await SelectTodos in
  match error r with
  | Some e => console_error (js "Fetch error:") e
  | None =>
      let transformedTodos :=
        match data r with
        | Some rows => List.map flatten_labels rows
        | None => []
        end in
      setTodos (fun _ => transformedTodos)
  end.

Definition resetForm : M unit := fun s => Ret (tt, clear_form s).

Section Handlers.
Context {I : Intl}.

(** The closure: the state variables of the render that created the
    handler. *)
Variable cl : State.

Definition createNewLabel (labelName : jsstring) : M (option jsstring) :=
  let trimmedName := trim labelName in
  if negb (str_truthy trimmedName) then ret None
  else
    let existingLabel :=
      List.find
        (fun label =>
           bool_decide (toLowerCase (Label.name label) = toLowerCase trimmedName))
        (labels cl) in
    match existingLabel with
    | Some l => ret (Some (Label.id l))
    | None =>
        let* r := await (InsertLabel trimmedName) in
        match r with
        | SingleError e =>
            console_error (js "Error creating label:") e ;;
            alert (js "Failed to create new label: " ++ message e) ;;
            ret None
        | SingleRow d =>
            setLabels
              (fun prev =>
                 sort (fun a b => localeCompare (Label.name a) (Label.name b))
                      (prev ++ [d])) ;;
            ret (Some (Label.id d))
        end
    end.

(** [selectedLabelIds.map(labelId => ({ todo_id, label_id: labelId }))] *)
Definition todoLabelsData (todo_id : Z) : list (Z * jsstring) :=
  List.map (fun labelId => (todo_id, labelId)) (selectedLabelIds cl).

(** [if (editingId)]: [null] and [0] are falsy. *)
Definition editing : option Z :=
  match editingId cl with
  | Some i => if i =? 0 then None else Some i
  | None => None
  end.

Definition saveTodo : M unit :=
  if negb (str_truthy (trim (title cl))) then alert (js "Title is required")
  else if negb (str_truthy (assigneeId cl)) then alert (js "Assignee is required")
  else if (length (selectedLabelIds cl) =? 0)%nat then
    alert (js "At least one label is required")
  else
    match editing with
    | Some eid =>
        (* Update todo *)
        let* r := await (UpdateTodo eid (title cl) (description cl)
                                    (dueDate cl) (assigneeId cl)) in
        match error r with
        | Some todoError =>
            console_error (js "Update error:") todoError ;;
            alert (message todoError)
        | None =>
            (* Delete existing todo_labels relationships *)
            await (DeleteTodoLabels eid) ;;
            (* Insert new todo_labels relationships *)
            (if (0 <? length (selectedLabelIds cl))%nat then
               let* r2 := await (InsertTodoLabels (todoLabelsData eid)) in
               match error r2 with
               | Some labelsError =>
                   console_error (js "Labels update error:") labelsError
               | None => ret tt
               end
             else ret tt) ;;
            resetForm ;;
            fetchTodos
        end
    | None =>
        (* Create new todo *)
        let* r := await (InsertTodo (title cl) (description cl)
                                    (dueDate cl) (assigneeId cl)) in
        match error r with
        | Some todoError =>
            console_error (js "Insert error:") todoError ;;
            alert (message todoError)
        | None =>
            (match data r with
             | Some (todoData0 :: _) =>
                 if (0 <? length (selectedLabelIds cl))%nat then
                   let* r2 :=
                     await (InsertTodoLabels (todoLabelsData (Todo.id todoData0))) in
                   match error r2 with
                   | Some labelsError =>
                       console_error (js "Labels insert error:") labelsError
                   | None => ret tt
                   end
                 else ret tt
             | _ => ret tt
             end) ;;
            resetForm ;;
            fetchTodos
        end
    end.

(** The updater of [toggleTodo]:
    [prev.map(t => t.id === id ? { ...t, completed: !completed } : t)]. *)
Definition patch_completed (id : Z) (completed : bool) (prev : list Todo.t)
  : list Todo.t :=
  List.map
    (fun t => if Todo.id t =? id then Todo.with_completed (negb completed) t else t)
    prev.

Definition toggleTodo (id : Z) (completed : bool) : M unit :=
  let* r := await (UpdateTodoCompleted id (negb completed)) in
  match error r with
  | Some e => console_error (js "Toggle error:") e
  | None =>
      match data r with
      | Some _ => setTodos (fun prev => patch_completed id completed prev)
      | None => ret tt
      end
  end.

Definition deleteTodo (id : Z) : M unit :=
  (* Delete todo_labels relationships first *)
  await (DeleteTodoLabels id) ;;
  (* Delete the todo *)
  let* r := await (DeleteTodo id) in
  match error r with
  | Some e => console_error (js "Delete error:") e
  | None => setTodos (fun prev => List.filter (fun t => negb (Todo.id t =? id)) prev)
  end.

(** *** Derived views, computed on every render *)

Definition assignedIds : list jsstring :=
  List.map Todo.assignee_id
    (List.filter
       (fun t =>
          match editingId cl with
          | None => true
          | Some e => (e =? 0) || negb (Todo.id t =? e)
          end)
       (todos cl)).

Definition availableUsers : list Profile.t :=
  List.filter
    (fun u =>
       negb (bool_decide (Profile.id u ∈ assignedIds))
       || bool_decide (Profile.id u = assigneeId cl))
    (users cl).

Definition filteredTodos : list Todo.t :=
  List.filter
    (fun todo =>
       (* Filter by assignee *)
       let matchesAssignee :=
         negb (str_truthy (filterUserId cl))
         || bool_decide (Todo.assignee_id todo = filterUserId cl) in
       (* Filter by labels *)
       let matchesLabels :=
         (length (filterLabelIds cl) =? 0)%nat
         || forallb
              (fun filterLabelId =>
                 match Todo.labels todo with
                 | Some ls =>
                     existsb (fun label => bool_decide (Label.id label = filterLabelId)) ls
                 | None => false
                 end)
              (filterLabelIds cl) in
       matchesAssignee && matchesLabels)
    (todos cl).
End Handlers.

(** The [onChange] of a todo's checkbox: [toggleTodo(todo.id, todo.completed)]. *)
Definition onToggle (todo : Todo.t) (cl : State) : M unit :=
  toggleTodo (Todo.id todo) (Todo.completed todo).

(** The [onClick] of a todo's delete button: [deleteTodo(todo.id)]. *)
Definition onDelete (todo : Todo.t) (cl : State) : M unit :=
  deleteTodo (Todo.id todo).

(** ** Sample stores and sample data

    Concrete stores to run the handlers against.  A scripted store answers
    the calls in turn from a list of flags ([true]: this call fails); once
    the script is used up every call succeeds. *)

Definition store_error : PgError := {| message := js "connection lost" |}.

Definition failed (c : call) : response c :=
  match c with
  | InsertLabel _ => SingleError store_error
  | SelectTodos => mkResult None (Some store_error)
  | UpdateTodo _ _ _ _ _ => mkResult None (Some store_error)
  | InsertTodo _ _ _ _ => mkResult None (Some store_error)
  | DeleteTodoLabels _ => mkResult None (Some store_error)
  | InsertTodoLabels _ => mkResult None (Some store_error)
  | UpdateTodoCompleted _ _ => mkResult None (Some store_error)
  | DeleteTodo _ => mkResult None (Some store_error)
  end.

(** A successful answer; [table] is what the todo query returns. *)
Definition answered (table : list TodoRow.t) (c : call) : response c :=
  match c with
  | InsertLabel name => SingleRow (Label.mk (js "id-of-" ++ name) name (Some (js "2025-01-01")))
  | SelectTodos => mkResult (Some table) None
  | UpdateTodo id t d due a => mkResult (Some [Todo.mk id t (Some d) (Some due) false a None None]) None
  | InsertTodo t d due a => mkResult (Some [Todo.mk 100 t (Some d) (Some due) false a None None]) None
  | DeleteTodoLabels _ => mkResult None None
  | InsertTodoLabels _ => mkResult None None
  | UpdateTodoCompleted id b => mkResult (Some [Todo.mk id [] None None b [] None None]) None
  | DeleteTodo _ => mkResult None None
  end.

Definition scripted (table : list TodoRow.t) (c : call) (script : list bool)
  : response c * list bool :=
  match script with
  | true :: rest => (failed c, rest)
  | false :: rest => (answered table c, rest)
  | [] => (answered table c, [])
  end.

(** ASCII-only lower-casing and code-unit order: one instance of the
    built-ins, used to run examples. *)
Definition ascii_lower (c : N) : N :=
  if ((65 <=? c) && (c <=? 90))%N then (c + 32)%N else c.

Fixpoint code_unit_compare (a b : jsstring) : Z :=
  match a, b with
  | [], [] => 0
  | [], _ :: _ => -1
  | _ :: _, [] => 1
  | x :: a', y :: b' =>
      match N.compare x y with
      | Lt => -1
      | Gt => 1
      | Eq => code_unit_compare a' b'
      end
  end.

Definition ascii_intl : Intl :=
  {| toLowerCase := List.map ascii_lower; localeCompare := code_unit_compare |}.

Definition alice : Profile.t := Profile.mk (js "u-alice") (js "Alice").
Definition bob : Profile.t := Profile.mk (js "u-bob") (js "Bob").
Definition urgent : Label.t := Label.mk (js "l-urgent") (js "urgent") None.
Definition home : Label.t := Label.mk (js "l-home") (js "home") None.

Definition rent_todo : Todo.t :=
  Todo.mk 7 (js "Pay rent") None None true (js "u-bob") (Some bob) (Some [home]).
Definition milk_todo : Todo.t :=
  Todo.mk 5 (js "Buy milk") None None false (js "u-alice") (Some alice)
          (Some [urgent; home]).

(** Two todos, newest first, nothing in the form, no filter. *)
Definition sample_state : State :=
  {| todos := [rent_todo; milk_todo];
     users := [alice; bob];
     labels := [home; urgent];
     title := []; description := []; dueDate := []; assigneeId := [];
     selectedLabelIds := []; newLabelName := []; editingId := None;
     filterUserId := []; filterLabelIds := [];
     isLabelDropdownOpen := false; isFilterLabelDropdownOpen := false |}.

(** The form as the user fills it in. *)
Definition fill_form (title description dueDate assigneeId : jsstring)
    (selectedLabelIds : list jsstring) (editingId : option Z) (s : State) : State :=
  mkState (todos s) (users s) (labels s) title description dueDate assigneeId
    selectedLabelIds (newLabelName s) editingId (filterUserId s)
    (filterLabelIds s) (isLabelDropdownOpen s) (isFilterLabelDropdownOpen s).

Definition set_filters (filterUserId : jsstring) (filterLabelIds : list jsstring)
    (s : State) : State :=
  mkState (todos s) (users s) (labels s) (title s) (description s) (dueDate s)
    (assigneeId s) (selectedLabelIds s) (newLabelName s) (editingId s)
    filterUserId filterLabelIds (isLabelDropdownOpen s)
    (isFilterLabelDropdownOpen s).

(** The edit form of "Buy milk" (todo 5) with a new title and a second
    label. *)
Definition editing_milk : State :=
  fill_form (js "Buy oat milk") [] [] (js "u-alice") [js "l-urgent"; js "l-home"]
    (Some 5) sample_state.

(** ** Vocabulary of the statements *)

(** A query succeeded: no error, and rows were returned. *)
Definition succeeded {A : Type} (r : result A) : Prop :=
  error r = None /\ is_Some (data r).

(** The label identifiers of a todo, as a set; a todo without a [labels]
    field has none. *)
Definition label_ids (t : Todo.t) : gset jsstring :=
  list_to_set (Label.id <$> default [] (Todo.labels t)).

(** The filter of the specification: the assignee filter is unset or equals
    the todo's assignee, and the todo carries every selected filter label. *)
Definition matches_filters (filterUserId : jsstring) (filterLabelIds : list jsstring)
    (t : Todo.t) : Prop :=
  (filterUserId = [] \/ Todo.assignee_id t = filterUserId) /\
  list_to_set filterLabelIds ⊆ label_ids t.

#[local] Instance matches_filters_dec u ls t : Decision (matches_filters u ls t) :=
  ltac:(unfold matches_filters; apply _).

(** A user is free when every todo that names them as assignee is the todo
    being edited. *)
Definition free_of_other_todos (s : State) (u : Profile.t) : Prop :=
  Forall (fun t => Todo.assignee_id t = Profile.id u -> editingId s = Some (Todo.id t))
         (todos s).

#[local] Instance free_of_other_todos_dec s u : Decision (free_of_other_todos s u) :=
  ltac:(unfold free_of_other_todos; apply _).

(** The cached label [l] matches the name [n] case-insensitively. *)
Definition matches_name {I : Intl} (n : jsstring) (l : Label.t) : Prop :=
  toLowerCase (Label.name l) = toLowerCase (trim n).


(** The todo list after the re-fetch that ends a save. *)
Definition refetched (r : result (list TodoRow.t)) (s : State) : State :=
  match error r with
  | Some _ => s
  | None => update_todos (fun _ => List.map flatten_labels (default [] (data r))) s
  end.

Definition log_of (tag : jsstring) (e : option PgError) : list event :=
  match e with
  | Some e => [EvConsoleError tag e]
  | None => []
  end.

(** ** The rest of the component

    The handlers and queries outside the sync core: the label picker, the
    filter controls, the two list fetches and the edit button. *)

Definition update_users (f : list Profile.t -> list Profile.t) (s : State) : State :=
  mkState (todos s) (f (users s)) (labels s) (title s) (description s)
    (dueDate s) (assigneeId s) (selectedLabelIds s) (newLabelName s)
    (editingId s) (filterUserId s) (filterLabelIds s)
    (isLabelDropdownOpen s) (isFilterLabelDropdownOpen s).

Definition update_selectedLabelIds (f : list jsstring -> list jsstring) (s : State)
  : State :=
  mkState (todos s) (users s) (labels s) (title s) (description s)
    (dueDate s) (assigneeId s) (f (selectedLabelIds s)) (newLabelName s)
    (editingId s) (filterUserId s) (filterLabelIds s)
    (isLabelDropdownOpen s) (isFilterLabelDropdownOpen s).

Definition update_filterLabelIds (f : list jsstring -> list jsstring) (s : State)
  : State :=
  mkState (todos s) (users s) (labels s) (title s) (description s)
    (dueDate s) (assigneeId s) (selectedLabelIds s) (newLabelName s)
    (editingId s) (filterUserId s) (f (filterLabelIds s))
    (isLabelDropdownOpen s) (isFilterLabelDropdownOpen s).

Definition set_newLabelName (v : jsstring) (s : State) : State :=
  mkState (todos s) (users s) (labels s) (title s) (description s)
    (dueDate s) (assigneeId s) (selectedLabelIds s) v
    (editingId s) (filterUserId s) (filterLabelIds s)
    (isLabelDropdownOpen s) (isFilterLabelDropdownOpen s).

Definition set_editingId (v : option Z) (s : State) : State :=
  mkState (todos s) (users s) (labels s) (title s) (description s)
    (dueDate s) (assigneeId s) (selectedLabelIds s) (newLabelName s)
    v (filterUserId s) (filterLabelIds s)
    (isLabelDropdownOpen s) (isFilterLabelDropdownOpen s).

(** [setTitle(t); setDescription(d); setDueDate(due); setAssigneeId(a)] *)
Definition set_form_fields (t d due a : jsstring) (s : State) : State :=
  mkState (todos s) (users s) (labels s) t d due a
    (selectedLabelIds s) (newLabelName s)
    (editingId s) (filterUserId s) (filterLabelIds s)
    (isLabelDropdownOpen s) (isFilterLabelDropdownOpen s).

Definition setSelectedLabelIds (f : list jsstring -> list jsstring) : M unit :=
  fun s => Ret (tt, update_selectedLabelIds f s).

Definition setNewLabelName (v : jsstring) : M unit :=
  fun s => Ret (tt, set_newLabelName v s).

(** [handleAddNewLabel]: [if (newLabelId)] is false for [null] and for the
    empty string. *)
Definition handleAddNewLabel {I : Intl} (cl : State) : M unit :=
  let* newLabelId := createNewLabel cl (newLabelName cl) in
  match newLabelId with
  | Some i =>
      if str_truthy i then
        setSelectedLabelIds (fun prev => prev ++ [i]) ;;
        setNewLabelName []
      else ret tt
  | None => ret tt
  end.

(** The updater shared by [handleLabelToggle] and [handleFilterLabelToggle]:
    [prev.includes(labelId) ? prev.filter(id => id !== labelId)
                            : [...prev, labelId]]. *)
Definition toggle_id (labelId : jsstring) (prev : list jsstring) : list jsstring :=
  if bool_decide (labelId ∈ prev)
  then List.filter (fun id => negb (bool_decide (id = labelId))) prev
  else prev ++ [labelId].

Definition handleLabelToggle (labelId : jsstring) : M unit :=
  setSelectedLabelIds (fun prev => toggle_id labelId prev).

Definition handleFilterLabelToggle (labelId : jsstring) : M unit :=
  fun s => Ret (tt, update_filterLabelIds (fun prev => toggle_id labelId prev) s).

(** [clearAllFilters]: [setFilterUserId(""); setFilterLabelIds([])]. *)
Definition clearAllFilters : M unit :=
  fun s => Ret (tt, set_filters [] [] s).

(** The filtered view of the earlier revision of the component, which has
    an assignee filter and no label filter. *)
Definition filteredTodos_by_assignee (cl : State) : list Todo.t :=
  if str_truthy (filterUserId cl)
  then List.filter (fun t => bool_decide (Todo.assignee_id t = filterUserId cl)) (todos cl)
  else todos cl.

(** *** Read queries and the handlers that issue them *)

Inductive query : Type :=
| SelectProfiles
    (* from("profiles").select("id, name") *)
| SelectLabels
    (* from("labels").select("id, name, created_at").order("name", asc) *)
| SelectTodoLabels (todo_id : Z).
    (* from("todo_labels").select("label_id").eq("todo_id", todo_id);
       a row is its label_id column *)

Definition answer (q : query) : Type :=
  match q with
  | SelectProfiles => result (list Profile.t)
  | SelectLabels => result (list Label.t)
  | SelectTodoLabels _ => result (list jsstring)
  end.

Inductive qprog (A : Type) : Type :=
| QRet (a : A)
| QAwait (q : query) (k : answer q -> qprog A)
| QConsoleError (tag : jsstring) (e : PgError) (k : qprog A).
Arguments QRet {A} _.
Arguments QAwait {A} _ _.
Arguments QConsoleError {A} _ _ _.

Inductive qevent : Type :=
| QEvRemote (q : query)
| QEvConsoleError (tag : jsstring) (e : PgError).

Section QRun.
Context {R : Type} (qrespond : forall q : query, R -> answer q * R).

Fixpoint qrun {A : Type} (p : qprog A) (σ : R) : A * list qevent * R :=
  match p with
  | QRet a => (a, [], σ)
  | QAwait q k =>
      let '(r, σ1) := qrespond q σ in
      let '(a, tr, σ2) := qrun (k r) σ1 in
      (a, QEvRemote q :: tr, σ2)
  | QConsoleError t e k =>
      let '(a, tr, σ1) := qrun k σ in (a, QEvConsoleError t e :: tr, σ1)
  end.
End QRun.

Definition fetchUsers (s : State) : qprog State :=
  QAwait SelectProfiles (fun r =>
    match error r with
    | Some e => QConsoleError (js "User fetch error:") e (QRet s)
    | None => QRet (update_users (fun _ => default [] (data r)) s)
    end).

Definition fetchLabels (s : State) : qprog State :=
  QAwait SelectLabels (fun r =>
    match error r with
    | Some e => QConsoleError (js "Labels fetch error:") e (QRet s)
    | None => QRet (update_labels (fun _ => default [] (data r)) s)
    end).

(** [editTodo]: four setters, the join-row query, then
    [if (!error && todoLabels) setSelectedLabelIds(...)] and
    [setEditingId(todo.id)]. *)
Definition editTodo (todo : Todo.t) (s : State) : qprog State :=
  let s1 :=
    set_form_fields (Todo.title todo)
      (match Todo.description todo with
       | Some d => if str_truthy d then d else []
       | None => []
       end)
      (match Todo.due_date todo with
       | Some d => if str_truthy d then d else []
       | None => []
       end)
      (if str_truthy (Todo.assignee_id todo) then Todo.assignee_id todo else [])
      s in
  QAwait (SelectTodoLabels (Todo.id todo)) (fun r =>
    let s2 :=
      match error r, data r with
      | None, Some todoLabels => update_selectedLabelIds (fun _ => todoLabels) s1
      | _, _ => s1
      end in
    QRet (set_editingId (Some (Todo.id todo)) s2)).

(** A store for the read queries of the examples: the first flag of the
    script tells whether the query fails. *)
Definition qfailed (q : query) : answer q :=
  match q with
  | SelectProfiles => mkResult None (Some store_error)
  | SelectLabels => mkResult None (Some store_error)
  | SelectTodoLabels _ => mkResult None (Some store_error)
  end.

Definition qanswered (profiles : list Profile.t) (cache : list Label.t)
    (joined : list jsstring) (q : query) : answer q :=
  match q with
  | SelectProfiles => mkResult (Some profiles) None
  | SelectLabels => mkResult (Some cache) None
  | SelectTodoLabels _ => mkResult (Some joined) None
  end.

Definition qscripted (profiles : list Profile.t) (cache : list Label.t)
    (joined : list jsstring) (q : query) (script : list bool)
  : answer q * list bool :=
  match script with
  | true :: rest => (qfailed q, rest)
  | _ => (qanswered profiles cache joined q, tl script)
  end.

(** A store that accepts every write and returns no rows: [data] is
    [null] everywhere (the label insert, which ends in [.single()], returns
    the inserted name under a fixed identifier). *)
Definition rowless_answer (c : call) : response c :=
  match c with
  | InsertLabel name => SingleRow (Label.mk (js "l-new") name None)
  | SelectTodos => mkResult None None
  | UpdateTodo _ _ _ _ _ => mkResult None None
  | InsertTodo _ _ _ _ => mkResult None None
  | DeleteTodoLabels _ => mkResult None None
  | InsertTodoLabels _ => mkResult None None
  | UpdateTodoCompleted _ _ => mkResult None None
  | DeleteTodo _ => mkResult None None
  end.

Definition rowless (c : call) (n : nat) : response c * nat :=
  (rowless_answer c, S n).

(** The names of a label cache are pairwise different once lower-cased. *)
Definition distinct_names {I : Intl} (ls : list Label.t) : Prop :=
  NoDup (List.map (fun l => toLowerCase (Label.name l)) ls).

(** The three preconditions of [saveTodo]. *)
Definition valid_form (cl : State) : Prop :=
  trim (title cl) <> [] /\ assigneeId cl <> [] /\ selectedLabelIds cl <> [].

(** * Properties *)

(** ** String helpers *)

Lemma str_truthy_false (s : jsstring) : str_truthy s = false <-> s = [].
Proof. destruct s; simpl; split; congruence. Qed.

Lemma str_truthy_true (s : jsstring) : str_truthy s = true <-> s <> [].
Proof. destruct s; simpl; split; congruence. Qed.

Example trim_both_ends : trim (js "  Buy milk " ++ [160%N; 10%N]) = js "Buy milk".
Proof. reflexivity. Qed.

Example trim_keeps_inner_blanks : trim (js "a  b") = js "a  b".
Proof. reflexivity. Qed.

Example sort_is_stable :
  sort (fun a b : Z * Z => fst a - fst b) [(2, 1); (1, 1); (2, 2); (1, 2)]
    = [(1, 1); (1, 2); (2, 1); (2, 2)].
Proof. reflexivity. Qed.

(** Membership in an explicit list whose elements all differ from the
    sought one by their head constructor. *)
Ltac absurd_elem_of H :=
  repeat (apply elem_of_cons in H as [H|H]; [discriminate|]);
  by apply elem_of_nil in H.

(** ** saveTodo: validation *)

(** C1: when the trimmed title is empty, or no assignee is selected, or no
    label is selected, [saveTodo] is a single [alert] followed by a return:
    its effect tree has no remote call at all, so against every store the
    trace is that one alert, the store is not touched, and the whole local
    state (todo list, user list, label list included) is returned as it
    was. *)
Theorem saveTodo_rejects_invalid_form
    {R : Type} (respond : forall c, R -> response c * R)
    (cl s : State) (σ : R) :
  trim (title cl) = [] \/ assigneeId cl = [] \/ selectedLabelIds cl = [] ->
  exists msg,
    msg ∈ [js "Title is required"; js "Assignee is required";
           js "At least one label is required"] /\
    saveTodo cl s = Alert msg (Ret (tt, s)) /\
    run respond (saveTodo cl s) σ = ((tt, s), [EvAlert msg], σ) /\
    List.filter is_remote (snd (fst (run respond (saveTodo cl s) σ))) = [] /\
    todos (snd (fst (fst (run respond (saveTodo cl s) σ)))) = todos s /\
    users (snd (fst (fst (run respond (saveTodo cl s) σ)))) = users s /\
    labels (snd (fst (fst (run respond (saveTodo cl s) σ)))) = labels s.
Proof.
  intros Hbad. unfold saveTodo.
  destruct (str_truthy (trim (title cl))) eqn:Ht; simpl.
  2:{ eexists; split; [apply list_elem_of_here|]. repeat split; reflexivity. }
  destruct (str_truthy (assigneeId cl)) eqn:Ha; simpl.
  2:{ eexists; split; [apply list_elem_of_further, list_elem_of_here|].
      repeat split; reflexivity. }
  destruct (selectedLabelIds cl) eqn:Hl; simpl.
  { eexists; split; [do 2 apply list_elem_of_further; apply list_elem_of_here|].
    repeat split; reflexivity. }
  exfalso. apply str_truthy_true in Ht, Ha.
  destruct Hbad as [H | [H | H]]; congruence.
Qed.

(** ** createNewLabel: blank names *)

(** C10: for a name that trims to the empty string, [createNewLabel] returns
    [null] at once: its effect tree is a bare return, so there is no remote
    call, no alert, no log, and the state (the label cache included) is the
    one it started from. *)
Theorem createNewLabel_blank_name
    {I : Intl} {R : Type} (respond : forall c, R -> response c * R)
    (cl s : State) (labelName : jsstring) (σ : R) :
  trim labelName = [] ->
  createNewLabel cl labelName s = Ret (None, s) /\
  run respond (createNewLabel cl labelName s) σ = ((None, s), [], σ).
Proof.
  intros Hblank. unfold createNewLabel. rewrite Hblank. simpl. split; reflexivity.
Qed.

(** ** deleteTodo *)

Section DeleteTodo.
Context {R : Type} (respond : forall c, R -> response c * R).

(** What [deleteTodo] does against any store, as one equation. *)
Lemma run_deleteTodo (id : Z) (s : State) (σ : R) :
  run respond (deleteTodo id s) σ =
    let σ1 := snd (respond (DeleteTodoLabels id) σ) in
    let r := fst (respond (DeleteTodo id) σ1) in
    let σ2 := snd (respond (DeleteTodo id) σ1) in
    match error r with
    | Some e =>
        ((tt, s),
         [EvRemote (DeleteTodoLabels id); EvRemote (DeleteTodo id);
          EvConsoleError (js "Delete error:") e], σ2)
    | None =>
        ((tt, update_todos (List.filter (fun t => negb (Todo.id t =? id))) s),
         [EvRemote (DeleteTodoLabels id); EvRemote (DeleteTodo id)], σ2)
    end.
Proof.
  unfold deleteTodo, bind, await. simpl.
  destruct (respond (DeleteTodoLabels id) σ) as [r1 σ1]. simpl.
  destruct (respond (DeleteTodo id) σ1) as [r2 σ2]. simpl.
  destruct (error r2); reflexivity.
Qed.
End DeleteTodo.

(** C7: against every store, [deleteTodo id] issues the join-row delete and
    then the todo-row delete, in that order and whatever the first one
    answered; the answer of the join-row delete is never inspected (no log,
    no alert, no effect on the local state); when the todo-row delete
    reports an error it is logged and the local state is unchanged; when it
    does not, the todos with that identifier are removed from the local list
    and the rest of the list is kept in order. *)
Theorem deleteTodo_children_then_parent
    {R : Type} (respond : forall c, R -> response c * R)
    (id : Z) (s : State) (σ : R) :
  let out := run respond (deleteTodo id s) σ in
  let s' := snd (fst (fst out)) in
  let trace := snd (fst out) in
  let r2 := fst (respond (DeleteTodo id) (snd (respond (DeleteTodoLabels id) σ))) in
  List.filter is_remote trace =
    [EvRemote (DeleteTodoLabels id); EvRemote (DeleteTodo id)] /\
  (forall msg, EvAlert msg ∉ trace) /\
  (forall e, error r2 = Some e ->
     s' = s /\
     trace = [EvRemote (DeleteTodoLabels id); EvRemote (DeleteTodo id);
              EvConsoleError (js "Delete error:") e]) /\
  (error r2 = None ->
     trace = [EvRemote (DeleteTodoLabels id); EvRemote (DeleteTodo id)] /\
     s' = update_todos (List.filter (fun t => negb (Todo.id t =? id))) s /\
     todos s' = filter (fun t => Todo.id t <> id) (todos s) /\
     (forall t, t ∈ todos s' <-> t ∈ todos s /\ Todo.id t <> id)).
Proof.
  intros out s' trace r2. subst out s' trace r2.
  rewrite run_deleteTodo. cbv zeta.
  destruct (error (fst (respond (DeleteTodo id) _))) as [e|] eqn:He; simpl.
  - repeat split.
    + intros msg Hin. absurd_elem_of Hin.
    + congruence.
    + congruence.
    + discriminate.
    + discriminate.
    + discriminate.
    + discriminate.
    + discriminate.
  - assert (Hf : List.filter (fun t => negb (Todo.id t =? id)) (todos s)
                 = filter (fun t => Todo.id t <> id) (todos s)).
    { induction (todos s) as [|t l IH]; [reflexivity|].
      simpl. rewrite filter_cons, IH.
      destruct (Z.eqb_spec (Todo.id t) id); simpl; case_decide; congruence. }
    change (todos (update_todos ?f s)) with (f (todos s)).
    rewrite Hf.
    split; [reflexivity|]. split; [intros msg Hin; absurd_elem_of Hin|].
    split; [discriminate|]. intros _.
    split; [reflexivity|]. split; [reflexivity|]. split; [reflexivity|].
    intros t. rewrite list_elem_of_filter. tauto.
Qed.

(** Witness of C1: the scenario of the specification, "Buy milk" for Alice
    with no label selected, against a store that would accept anything. *)
Lemma saveTodo_rejects_invalid_form_witness :
  let cl := fill_form (js "Buy milk") [] [] (js "u-alice") [] None sample_state in
  selectedLabelIds cl = [] /\
  exists msg,
    msg ∈ [js "Title is required"; js "Assignee is required";
           js "At least one label is required"] /\
    saveTodo cl cl = Alert msg (Ret (tt, cl)) /\
    run (scripted []) (saveTodo cl cl) [] = ((tt, cl), [EvAlert msg], []) /\
    List.filter is_remote (snd (fst (run (scripted []) (saveTodo cl cl) []))) = [] /\
    todos (snd (fst (fst (run (scripted []) (saveTodo cl cl) [])))) = todos cl /\
    users (snd (fst (fst (run (scripted []) (saveTodo cl cl) [])))) = users cl /\
    labels (snd (fst (fst (run (scripted []) (saveTodo cl cl) [])))) = labels cl.
Proof.
  intros cl. split; [reflexivity|].
  apply (saveTodo_rejects_invalid_form (scripted []) cl cl []).
  right; right; reflexivity.
Defined.

(** Witness of C10: a name of blanks and a tab. *)
Lemma createNewLabel_blank_name_witness :
  trim (js "  " ++ [9%N]) = [] /\
  createNewLabel (I := ascii_intl) sample_state (js "  " ++ [9%N]) sample_state
    = Ret (None, sample_state) /\
  run (scripted []) (createNewLabel (I := ascii_intl) sample_state
                       (js "  " ++ [9%N]) sample_state) [true]
    = ((None, sample_state), [], [true]).
Proof.
  split; [reflexivity|].
  apply (createNewLabel_blank_name (I := ascii_intl) (scripted [])
           sample_state sample_state (js "  " ++ [9%N]) [true]).
  reflexivity.
Defined.

(** Witness of C7: the join-row delete fails and the todo-row delete
    succeeds: todo 5 leaves the list and nothing is logged. *)
Lemma deleteTodo_children_then_parent_witness :
  error (fst (scripted [] (DeleteTodoLabels 5) [true; false])) = Some store_error /\
  run (scripted []) (deleteTodo 5 sample_state) [true; false] =
    ((tt, update_todos (List.filter (fun t => negb (Todo.id t =? 5))) sample_state),
     [EvRemote (DeleteTodoLabels 5); EvRemote (DeleteTodo 5)], []) /\
  List.map Todo.id
    (todos (snd (fst (fst (run (scripted []) (deleteTodo 5 sample_state)
                             [true; false]))))) = [7].
Proof.
  split; [reflexivity|].
  pose proof (deleteTodo_children_then_parent (scripted []) 5 sample_state
                [true; false]) as H.
  cbv zeta in H. destruct H as (_ & _ & _ & H).
  destruct (H eq_refl) as (_ & Hs & _).
  split; [reflexivity|]. rewrite Hs. reflexivity.
Defined.

(** ** toggleTodo *)

Section ToggleTodo.
Context {R : Type} (respond : forall c, R -> response c * R).

Lemma run_toggleTodo (id : Z) (completed : bool) (s : State) (σ : R) :
  run respond (toggleTodo id completed s) σ =
    let c := UpdateTodoCompleted id (negb completed) in
    let r := fst (respond c σ) in
    ((tt,
      match error r, data r with
      | None, Some _ => update_todos (patch_completed id completed) s
      | _, _ => s
      end),
     EvRemote c ::
       match error r with
       | Some e => [EvConsoleError (js "Toggle error:") e]
       | None => []
       end,
     snd (respond c σ)).
Proof.
  unfold toggleTodo, bind, await. simpl.
  destruct (respond (UpdateTodoCompleted id (negb completed)) σ) as [r σ1]. simpl.
  destruct (error r); [reflexivity|]. destruct (data r); reflexivity.
Qed.

Lemma run_toggleTodo_ok (id : Z) (completed : bool) (s : State) (σ : R) :
  succeeded (fst (respond (UpdateTodoCompleted id (negb completed)) σ)) ->
  run respond (toggleTodo id completed s) σ =
    ((tt, update_todos (patch_completed id completed) s),
     [EvRemote (UpdateTodoCompleted id (negb completed))],
     snd (respond (UpdateTodoCompleted id (negb completed)) σ)).
Proof.
  intros [Herr [d Hd]]. rewrite run_toggleTodo. cbv zeta.
  rewrite Herr, Hd. reflexivity.
Qed.
End ToggleTodo.

Lemma patch_completed_lookup (id : Z) (c : bool) (l : list Todo.t) (i : nat) :
  patch_completed id c l !! i =
    (fun t => if Todo.id t =? id then Todo.with_completed (negb c) t else t) <$> l !! i.
Proof. unfold patch_completed. apply list_lookup_fmap. Qed.

Lemma with_completed_same (t : Todo.t) : Todo.with_completed (Todo.completed t) t = t.
Proof. destruct t; reflexivity. Qed.

Lemma with_completed_twice (b c : bool) (t : Todo.t) :
  Todo.with_completed b (Todo.with_completed c t) = Todo.with_completed b t.
Proof. reflexivity. Qed.

Lemma patch_completed_at (l : list Todo.t) (i : nat) (t : Todo.t) (c : bool) :
  l !! i = Some t ->
  patch_completed (Todo.id t) c l !! i = Some (Todo.with_completed (negb c) t).
Proof.
  intros Hi. rewrite patch_completed_lookup, Hi. simpl.
  by rewrite Z.eqb_refl.
Qed.

(** C4: take any todo of the local list (at position [i]) and tick its
    checkbox twice, the second time on the list as re-rendered after the
    first.  If the store answers both updates with success, the todo at that
    position is again exactly the original one (its completed flag is back),
    and the two actions together issued two remote calls, both of them
    updates of the completed flag of that identifier, and nothing else. *)
Theorem toggle_twice_restores_completed
    {R : Type} (respond : forall c, R -> response c * R)
    (s : State) (σ : R) (i : nat) (t : Todo.t) :
  todos s !! i = Some t ->
  let c1 := UpdateTodoCompleted (Todo.id t) (negb (Todo.completed t)) in
  let c2 := UpdateTodoCompleted (Todo.id t) (Todo.completed t) in
  let σ1 := snd (respond c1 σ) in
  succeeded (fst (respond c1 σ)) ->
  succeeded (fst (respond c2 σ1)) ->
  exists s1 t1 s2 tr1 tr2,
    dispatch respond (onToggle t) s σ = ((tt, s1), tr1, σ1) /\
    todos s1 !! i = Some t1 /\
    Todo.completed t1 = negb (Todo.completed t) /\
    dispatch respond (onToggle t1) s1 σ1 = ((tt, s2), tr2, snd (respond c2 σ1)) /\
    todos s2 !! i = Some t /\
    Todo.completed <$> todos s2 !! i = Todo.completed <$> todos s !! i /\
    tr1 ++ tr2 = [EvRemote c1; EvRemote c2] /\
    length (List.filter is_remote (tr1 ++ tr2)) = 2%nat.
Proof.
  intros Hi c1 c2 σ1 Hok1 Hok2.
  set (t1 := Todo.with_completed (negb (Todo.completed t)) t).
  exists (update_todos (patch_completed (Todo.id t) (Todo.completed t)) s), t1.
  exists (update_todos (patch_completed (Todo.id t) (negb (Todo.completed t)))
            (update_todos (patch_completed (Todo.id t) (Todo.completed t)) s)).
  exists [EvRemote c1], [EvRemote c2].
  assert (H1 : todos (update_todos (patch_completed (Todo.id t) (Todo.completed t)) s) !! i
               = Some t1).
  { simpl. by apply patch_completed_at. }
  assert (H2 : todos (update_todos (patch_completed (Todo.id t) (negb (Todo.completed t)))
                 (update_todos (patch_completed (Todo.id t) (Todo.completed t)) s)) !! i
               = Some t).
  { change (patch_completed (Todo.id t1) (Todo.completed t1)
              (todos (update_todos (patch_completed (Todo.id t) (Todo.completed t)) s)) !! i
            = Some t).
    rewrite (patch_completed_at _ i t1 _ H1).
    subst t1. rewrite with_completed_twice. simpl. rewrite negb_involutive.
    by rewrite with_completed_same. }
  split.
  { unfold dispatch, onToggle. by rewrite run_toggleTodo_ok. }
  split; [exact H1|]. split; [reflexivity|].
  split.
  { unfold dispatch, onToggle.
    change (Todo.id t1) with (Todo.id t).
    change (Todo.completed t1) with (negb (Todo.completed t)).
    rewrite run_toggleTodo_ok; rewrite negb_involutive; [reflexivity|exact Hok2]. }
  split; [exact H2|]. split; [by rewrite H2, Hi|]. split; reflexivity.
Qed.

(** Witness of C4: todo 5 of the sample list (position 1, not completed). *)
Lemma toggle_twice_restores_completed_witness :
  exists s1 t1 s2 tr1 tr2,
    dispatch (scripted []) (onToggle milk_todo) sample_state [false; false]
      = ((tt, s1), tr1, [false]) /\
    todos s1 !! 1%nat = Some t1 /\
    Todo.completed t1 = true /\
    dispatch (scripted []) (onToggle t1) s1 [false] = ((tt, s2), tr2, []) /\
    todos s2 !! 1%nat = todos sample_state !! 1%nat /\
    tr1 ++ tr2 = [EvRemote (UpdateTodoCompleted 5 true);
                  EvRemote (UpdateTodoCompleted 5 false)].
Proof.
  destruct (toggle_twice_restores_completed (scripted []) sample_state
              [false; false] 1%nat milk_todo)
    as (s1 & t1 & s2 & tr1 & tr2 & H1 & H2 & H3 & H4 & H5 & _ & H6 & _).
  - reflexivity.
  - split; [reflexivity|]. eexists; reflexivity.
  - split; [reflexivity|]. eexists; reflexivity.
  - exists s1, t1, s2, tr1, tr2. repeat split; assumption.
Defined.

(** C5: a successful toggle of a todo of the local list issues one remote
    call, the update of the completed flag filtered on that identifier, and
    no query that fetches todos, joins or assignees; the answer's rows are
    not used.  Locally the list keeps its length and order; at every
    position the todo keeps its identifier, title, description, due date,
    assignee and labels; a todo with another identifier is unchanged; a todo
    with that identifier gets the negated flag; with identifiers unique in
    the list, the new list is the old one with that single position
    replaced.  Every other state variable is unchanged. *)
Theorem toggle_patches_only_completed
    {R : Type} (respond : forall c, R -> response c * R)
    (s : State) (σ : R) (t : Todo.t) :
  t ∈ todos s ->
  let c := UpdateTodoCompleted (Todo.id t) (negb (Todo.completed t)) in
  succeeded (fst (respond c σ)) ->
  exists s',
    dispatch respond (onToggle t) s σ = ((tt, s'), [EvRemote c], snd (respond c σ)) /\
    s' = update_todos (fun _ => todos s') s /\
    length (todos s') = length (todos s) /\
    List.map Todo.id (todos s') = List.map Todo.id (todos s) /\
    (forall i u, todos s !! i = Some u ->
       exists u', todos s' !! i = Some u' /\
         Todo.id u' = Todo.id u /\ Todo.title u' = Todo.title u /\
         Todo.description u' = Todo.description u /\
         Todo.due_date u' = Todo.due_date u /\
         Todo.assignee_id u' = Todo.assignee_id u /\
         Todo.assignee u' = Todo.assignee u /\
         Todo.labels u' = Todo.labels u /\
         (Todo.id u <> Todo.id t -> u' = u) /\
         (Todo.id u = Todo.id t ->
            Todo.completed u' = negb (Todo.completed t))) /\
    (NoDup (List.map Todo.id (todos s)) ->
     forall i, todos s !! i = Some t ->
       todos s' =
         <[i := Todo.with_completed (negb (Todo.completed t)) t]> (todos s)).
Proof.
  intros Hin c Hok.
  exists (update_todos (patch_completed (Todo.id t) (Todo.completed t)) s).
  split. { unfold dispatch, onToggle. by rewrite run_toggleTodo_ok. }
  split; [reflexivity|].
  change (todos (update_todos ?f s)) with (f (todos s)).
  split. { unfold patch_completed. apply length_map. }
  split.
  { unfold patch_completed. rewrite List.map_map. apply List.map_ext.
    intros u. by destruct (Todo.id u =? Todo.id t). }
  split.
  { intros i u Hi. rewrite patch_completed_lookup, Hi. simpl.
    eexists; split; [reflexivity|].
    destruct (Z.eqb_spec (Todo.id u) (Todo.id t)) as [He|Hne];
      repeat split; try reflexivity; try congruence. }
  intros Hnd i Hi. apply list_eq. intros j.
  rewrite patch_completed_lookup.
  destruct (decide (i = j)) as [<-|Hij].
  - rewrite list_lookup_insert_eq by (by eapply lookup_lt_Some).
    rewrite Hi. simpl. by rewrite Z.eqb_refl.
  - rewrite list_lookup_insert_ne by done.
    destruct (todos s !! j) as [u|] eqn:Hj; [|reflexivity]. simpl.
    destruct (Z.eqb_spec (Todo.id u) (Todo.id t)) as [He|Hne]; [|reflexivity].
    exfalso. apply Hij.
    apply (NoDup_lookup (List.map Todo.id (todos s)) i j (Todo.id t)); [done| |].
    + change (List.map Todo.id (todos s)) with (Todo.id <$> todos s).
      by rewrite list_lookup_fmap, Hi.
    + change (List.map Todo.id (todos s)) with (Todo.id <$> todos s).
      rewrite list_lookup_fmap, Hj. simpl. by rewrite He.
Qed.

(** Witness of C5: ticking "Buy milk" in the sample list; identifiers are
    unique there, so exactly position 1 is replaced. *)
Lemma toggle_patches_only_completed_witness :
  milk_todo ∈ todos sample_state /\
  NoDup (List.map Todo.id (todos sample_state)) /\
  exists s',
    dispatch (scripted []) (onToggle milk_todo) sample_state []
      = ((tt, s'), [EvRemote (UpdateTodoCompleted 5 true)], []) /\
    todos s' = [rent_todo; Todo.with_completed true milk_todo].
Proof.
  assert (Hin : milk_todo ∈ todos sample_state).
  { apply list_elem_of_further, list_elem_of_here. }
  assert (Hnd : NoDup (List.map Todo.id (todos sample_state))).
  { apply (bool_decide_unpack _). vm_compute. exact I. }
  split; [exact Hin|]. split; [exact Hnd|].
  destruct (toggle_patches_only_completed (scripted []) sample_state [] milk_todo Hin)
    as (s' & Hrun & _ & _ & _ & _ & Hone).
  { split; [reflexivity|]. eexists; reflexivity. }
  exists s'. split; [exact Hrun|].
  rewrite (Hone Hnd 1%nat eq_refl). reflexivity.
Defined.

(** ** filteredTodos *)

Lemma List_filter_stdpp {A : Type} (f : A -> bool) (P : A -> Prop)
    `{!forall x, Decision (P x)} (l : list A) :
  (forall x, f x = true <-> P x) -> List.filter f l = filter P l.
Proof.
  intros Hf. induction l as [|x l IH]; [reflexivity|].
  simpl. rewrite filter_cons, IH.
  destruct (f x) eqn:Hx; case_decide as HP; try reflexivity.
  - apply Hf in Hx. contradiction.
  - apply Hf in HP. congruence.
Qed.

Lemma has_label_spec (t : Todo.t) (l : jsstring) :
  match Todo.labels t with
  | Some ls => existsb (fun label => bool_decide (Label.id label = l)) ls
  | None => false
  end = true <-> l ∈ label_ids t.
Proof.
  unfold label_ids. rewrite elem_of_list_to_set, list_elem_of_fmap.
  destruct (Todo.labels t) as [ls|]; simpl.
  - rewrite existsb_exists. split.
    + intros (x & Hx & He). apply bool_decide_eq_true in He.
      exists x. split; [done|]. by apply list_elem_of_In.
    + intros (x & -> & Hx). exists x. split; [by apply list_elem_of_In|].
      by apply bool_decide_eq_true.
  - split; [discriminate|]. intros (x & _ & Hx). by apply elem_of_nil in Hx.
Qed.

Lemma filteredTodos_test (cl : State) (t : Todo.t) :
  (negb (str_truthy (filterUserId cl))
     || bool_decide (Todo.assignee_id t = filterUserId cl))
  && ((length (filterLabelIds cl) =? 0)%nat
      || forallb
           (fun filterLabelId =>
              match Todo.labels t with
              | Some ls =>
                  existsb (fun label => bool_decide (Label.id label = filterLabelId)) ls
              | None => false
              end)
           (filterLabelIds cl)) = true
  <-> matches_filters (filterUserId cl) (filterLabelIds cl) t.
Proof.
  unfold matches_filters.
  rewrite andb_true_iff, !orb_true_iff, negb_true_iff, str_truthy_false,
    bool_decide_eq_true, forallb_forall.
  apply and_iff_compat_l. split.
  - intros [Hlen | Hall] l Hl; apply elem_of_list_to_set in Hl.
    + destruct (filterLabelIds cl); [by apply elem_of_nil in Hl | discriminate].
    + apply has_label_spec, Hall. by apply list_elem_of_In.
  - intros Hsub. right. intros l Hl. apply has_label_spec, Hsub.
    apply elem_of_list_to_set. by apply list_elem_of_In.
Qed.

(** C2: the filtered view is the todo list filtered (order and
    multiplicity kept) by: the assignee filter is unset or equal to the
    todo's assignee, AND the todo's label set includes the set of selected
    filter labels.  With an assignee filter and no label filter it is the
    sublist of the todos with that assignee; a todo lacking any one of the
    selected filter labels is left out (AND, not OR).  The view is a
    function of the todo list and the two filters alone. *)
Theorem filteredTodos_exact (s : State) :
  filteredTodos s = filter (matches_filters (filterUserId s) (filterLabelIds s)) (todos s) /\
  (forall t, t ∈ filteredTodos s <->
     t ∈ todos s /\
     (filterUserId s = [] \/ Todo.assignee_id t = filterUserId s) /\
     list_to_set (filterLabelIds s) ⊆ label_ids t) /\
  (filterUserId s <> [] -> filterLabelIds s = [] ->
     filteredTodos s = filter (fun t => Todo.assignee_id t = filterUserId s) (todos s)) /\
  (forall t l, l ∈ filterLabelIds s -> l ∉ label_ids t -> t ∉ filteredTodos s) /\
  (forall s', todos s' = todos s -> filterUserId s' = filterUserId s ->
     filterLabelIds s' = filterLabelIds s -> filteredTodos s' = filteredTodos s).
Proof.
  assert (Hexact : filteredTodos s =
    filter (matches_filters (filterUserId s) (filterLabelIds s)) (todos s)).
  { unfold filteredTodos. apply List_filter_stdpp. intros t. apply filteredTodos_test. }
  split; [exact Hexact|]. split; [|split; [|split]].
  - intros t. rewrite Hexact, list_elem_of_filter. unfold matches_filters. tauto.
  - intros Hu Hl. rewrite Hexact.
    apply (list_filter_iff (matches_filters (filterUserId s) (filterLabelIds s))
             (fun t => Todo.assignee_id t = filterUserId s)).
    intros t.
    unfold matches_filters. rewrite Hl. split; [tauto|].
    intros Ha. split; [by right|]. simpl. apply empty_subseteq.
  - intros t l Hl Hnot. rewrite Hexact, list_elem_of_filter.
    intros [[_ Hsub] _]. apply Hnot, Hsub. by apply elem_of_list_to_set.
  - intros s' Ht Hu Hl. unfold filteredTodos. by rewrite Ht, Hu, Hl.
Qed.

(** Witness of C2: the sample list filtered on Alice alone. *)
Lemma filteredTodos_exact_witness :
  let s := set_filters (js "u-alice") [] sample_state in
  filterUserId s <> [] /\ filterLabelIds s = [] /\
  filteredTodos s = filter (fun t => Todo.assignee_id t = filterUserId s) (todos s) /\
  filteredTodos s = [milk_todo].
Proof.
  intros s.
  assert (Hu : filterUserId s <> []) by discriminate.
  assert (Hl : filterLabelIds s = []) by reflexivity.
  split; [exact Hu|]. split; [exact Hl|].
  destruct (filteredTodos_exact s) as (_ & _ & H & _).
  split; [exact (H Hu Hl)|reflexivity].
Defined.

(** Two label filters: "Pay rent" carries only one of them and is left
    out. *)
Example filteredTodos_two_labels :
  filteredTodos (set_filters [] [js "l-home"; js "l-urgent"] sample_state) = [milk_todo] /\
  filteredTodos (set_filters [] [js "l-home"] sample_state) = [rent_todo; milk_todo] /\
  filteredTodos (set_filters (js "u-bob") [js "l-urgent"] sample_state) = [].
Proof. repeat split; reflexivity. Qed.

(** ** availableUsers *)

Lemma elem_of_assignedIds (s : State) (a : jsstring) :
  a ∈ assignedIds s <->
  exists t, t ∈ todos s /\ Todo.assignee_id t = a /\
    match editingId s with
    | None => True
    | Some e => e = 0 \/ Todo.id t <> e
    end.
Proof.
  unfold assignedIds. rewrite list_elem_of_In, in_map_iff.
  split.
  - intros (t & Ha & Ht). apply filter_In in Ht as [Ht Htest].
    exists t. split; [by apply list_elem_of_In|]. split; [done|].
    destruct (editingId s) as [e|]; [|done].
    apply orb_true_iff in Htest as [H0|Hne].
    + left. by apply Z.eqb_eq.
    + right. apply negb_true_iff in Hne. by apply Z.eqb_neq.
  - intros (t & Ht & Ha & Htest). exists t. split; [done|].
    apply filter_In. split; [by apply list_elem_of_In|].
    destruct (editingId s) as [e|]; [|done].
    apply orb_true_iff. destruct Htest as [H0|Hne].
    + left. by apply Z.eqb_eq.
    + right. apply negb_true_iff. by apply Z.eqb_neq.
Qed.

Lemma free_iff_not_assigned (s : State) (u : Profile.t) :
  editingId s <> Some 0 ->
  free_of_other_todos s u <-> Profile.id u ∉ assignedIds s.
Proof.
  intros He0. unfold free_of_other_todos.
  rewrite Forall_forall, elem_of_assignedIds. split.
  - intros Hfree (t & Ht & Ha & Htest). specialize (Hfree t Ht Ha).
    rewrite Hfree in Htest, He0. destruct Htest; congruence.
  - intros Hnone t Ht Ha.
    destruct (decide (editingId s = Some (Todo.id t))) as [|Hne]; [done|].
    exfalso. apply Hnone. exists t. split; [done|]. split; [done|].
    destruct (editingId s) as [e|]; [|done].
    right. congruence.
Qed.

(** C8, as the code has it: when the edit target is unset or a non-zero
    identifier, the available assignees are the user list filtered (order
    kept) by: the user is assigned to no todo other than the one being
    edited, OR the user's identifier is the assignee currently selected in
    the form.  The view is a function of the todo list, the user list, the
    edit target and the form's assignee alone. *)
Theorem availableUsers_exact (s : State) :
  editingId s <> Some 0 ->
  availableUsers s =
    filter (fun u => free_of_other_todos s u \/ Profile.id u = assigneeId s) (users s) /\
  (forall u, u ∈ availableUsers s <->
     u ∈ users s /\
     ((forall t, t ∈ todos s -> Todo.assignee_id t = Profile.id u ->
         editingId s = Some (Todo.id t))
      \/ Profile.id u = assigneeId s)) /\
  (forall s', todos s' = todos s -> users s' = users s ->
     editingId s' = editingId s -> assigneeId s' = assigneeId s ->
     availableUsers s' = availableUsers s).
Proof.
  intros He0.
  assert (Hexact : availableUsers s =
    filter (fun u => free_of_other_todos s u \/ Profile.id u = assigneeId s) (users s)).
  { unfold availableUsers. apply List_filter_stdpp. intros u.
    rewrite orb_true_iff, negb_true_iff, bool_decide_eq_false, bool_decide_eq_true.
    by rewrite free_iff_not_assigned. }
  split; [exact Hexact|]. split.
  - intros u. rewrite Hexact, list_elem_of_filter.
    unfold free_of_other_todos. rewrite Forall_forall. tauto.
  - intros s' Ht Hu He Ha. unfold availableUsers, assignedIds.
    by rewrite Ht, Hu, He, Ha.
Qed.

(** Counterexample to C8 as stated: nobody is being edited, Alice is the
    assignee of todo 5 and is the assignee selected in the form.  Alice is
    offered as available although assigned to a todo that is not the
    one being edited, so the view is not the list of free users. *)
Lemma availableUsers_not_only_free :
  let s := fill_form [] [] [] (js "u-alice") [] None sample_state in
  alice ∈ availableUsers s /\
  (exists t, t ∈ todos s /\ Todo.assignee_id t = Profile.id alice /\
             editingId s <> Some (Todo.id t)) /\
  ~ free_of_other_todos s alice /\
  availableUsers s <> filter (free_of_other_todos s) (users s).
Proof.
  intros s. split; [apply list_elem_of_here|]. split.
  { exists milk_todo. split; [apply list_elem_of_further, list_elem_of_here|].
    split; [reflexivity|discriminate]. }
  split.
  { apply (bool_decide_eq_false_1 _). reflexivity. }
  discriminate.
Qed.

(** Witness of C8: editing todo 5, whose assignee is Alice, with Alice
    selected in the form; Bob holds todo 7 and is not offered. *)
Lemma availableUsers_exact_witness :
  let s := fill_form (js "Buy milk") [] [] (js "u-alice") [js "l-urgent"] (Some 5)
             sample_state in
  editingId s <> Some 0 /\
  availableUsers s =
    filter (fun u => free_of_other_todos s u \/ Profile.id u = assigneeId s) (users s) /\
  availableUsers s = [alice].
Proof.
  intros s.
  assert (He : editingId s <> Some 0) by discriminate.
  split; [exact He|].
  destruct (availableUsers_exact s He) as (H & _).
  split; [exact H|reflexivity].
Defined.

(** C9: a user of the user list whose identifier is the assignee selected
    in the form is always among the available assignees, whatever todos they
    are assigned to and whatever the edit target. *)
Theorem availableUsers_keeps_selected (s : State) (u : Profile.t) :
  u ∈ users s -> Profile.id u = assigneeId s -> u ∈ availableUsers s.
Proof.
  intros Hu Hsel. unfold availableUsers.
  apply list_elem_of_In, filter_In. split; [by apply list_elem_of_In|].
  apply orb_true_iff. right. by apply bool_decide_eq_true.
Qed.

(** Witness of C9: Bob is selected in the form while holding todo 7 and
    todo 5 is the one being edited. *)
Lemma availableUsers_keeps_selected_witness :
  let s := fill_form (js "Buy milk") [] [] (js "u-bob") [js "l-urgent"] (Some 5)
             sample_state in
  bob ∈ users s /\ Profile.id bob = assigneeId s /\
  Profile.id bob ∈ assignedIds s /\
  bob ∈ availableUsers s.
Proof.
  intros s.
  assert (Hu : bob ∈ users s) by apply list_elem_of_further, list_elem_of_here.
  split; [exact Hu|]. split; [reflexivity|].
  split; [apply list_elem_of_here|].
  exact (availableUsers_keeps_selected s bob Hu eq_refl).
Defined.

(** ** createNewLabel *)

Section SortFacts.
Context {A : Type} (cmp : A -> A -> Z).
Hypothesis cmp_total : forall a b, cmp a b <= 0 \/ cmp b a <= 0.

Lemma sort_insert_perm (x : A) (l : list A) : sort_insert cmp x l ≡ₚ x :: l.
Proof.
  induction l as [|y l IH]; simpl; [reflexivity|].
  destruct (cmp x y <=? 0); [reflexivity|].
  rewrite IH. apply Permutation_swap.
Qed.

Lemma sort_perm (l : list A) : sort cmp l ≡ₚ l.
Proof.
  induction l as [|x l IH]; simpl; [reflexivity|].
  by rewrite sort_insert_perm, IH.
Qed.



End SortFacts.




Section CreateNewLabel.
Context {I : Intl} {R : Type} (respond : forall c, R -> response c * R).

Lemma run_createNewLabel (cl s : State) (n : jsstring) (σ : R) :
  run respond (createNewLabel cl n s) σ =
    if str_truthy (trim n) then
      match List.find
              (fun label =>
                 bool_decide (toLowerCase (Label.name label) = toLowerCase (trim n)))
              (labels cl) with
      | Some l => ((Some (Label.id l), s), [], σ)
      | None =>
          match fst (respond (InsertLabel (trim n)) σ) with
          | SingleError e =>
              ((None, s),
               [EvRemote (InsertLabel (trim n));
                EvConsoleError (js "Error creating label:") e;
                EvAlert (js "Failed to create new label: " ++ message e)],
               snd (respond (InsertLabel (trim n)) σ))
          | SingleRow d =>
              ((Some (Label.id d),
                update_labels
                  (fun prev =>
                     sort (fun a b => localeCompare (Label.name a) (Label.name b))
                          (prev ++ [d])) s),
               [EvRemote (InsertLabel (trim n))],
               snd (respond (InsertLabel (trim n)) σ))
          end
      end
    else ((None, s), [], σ).
Proof.
  unfold createNewLabel.
  destruct (str_truthy (trim n)); simpl; [|reflexivity].
  destruct (List.find _ (labels cl)); simpl; [reflexivity|].
  unfold bind, await. simpl.
  destruct (respond (InsertLabel (trim n)) σ) as [r σ1]. simpl.
  destruct r; reflexivity.
Qed.

Lemma find_matches_name_Some (n : jsstring) (ls : list Label.t) (l : Label.t) :
  List.find
    (fun label => bool_decide (toLowerCase (Label.name label) = toLowerCase (trim n)))
    ls = Some l ->
  l ∈ ls /\ matches_name n l.
Proof.
  intros H. apply find_some in H as [Hin Hm].
  split; [by apply list_elem_of_In|]. by apply bool_decide_eq_true in Hm.
Qed.

Lemma find_matches_name_None (n : jsstring) (ls : list Label.t) :
  List.find
    (fun label => bool_decide (toLowerCase (Label.name label) = toLowerCase (trim n)))
    ls = None ->
  forall l, l ∈ ls -> ~ matches_name n l.
Proof.
  intros H l Hl Hm. apply list_elem_of_In in Hl.
  pose proof (find_none _ _ H l Hl) as Hf. simpl in Hf.
  apply bool_decide_eq_false in Hf. contradiction.
Qed.
End CreateNewLabel.




(** ** saveTodo: update mode *)

Section SaveTodoUpdate.
Context {R : Type} (respond : forall c, R -> response c * R).

Lemma run_fetchTodos (s : State) (σ : R) :
  run respond (fetchTodos s) σ =
    ((tt, refetched (fst (respond SelectTodos σ)) s),
     EvRemote SelectTodos :: log_of (js "Fetch error:") (error (fst (respond SelectTodos σ))),
     snd (respond SelectTodos σ)).
Proof.
  unfold fetchTodos, refetched, bind, await. simpl.
  destruct (respond SelectTodos σ) as [r σ1]. simpl.
  destruct (error r); [reflexivity|]. by destruct (data r).
Qed.

Lemma run_bind {A B : Type} (m : M A) (f : A -> M B) (s : State) (σ : R) :
  run respond (bind m f s) σ =
    let '((a, s1), tr1, σ1) := run respond (m s) σ in
    let '(b, tr2, σ2) := run respond (f a s1) σ1 in
    (b, tr1 ++ tr2, σ2).
Proof.
  unfold bind. revert σ. induction (m s) as [[a s1]|c k IH|msg k IH|tag e k IH];
    intros σ; simpl.
  - by destruct (run respond (f a s1) σ) as [[b tr2] σ2].
  - destruct (respond c σ) as [r σ1]. rewrite IH.
    destruct (run respond (k r) σ1) as [[[a s1] tr1] σ1'].
    by destruct (run respond (f a s1) σ1') as [[b tr2] σ2].
  - rewrite IH. destruct (run respond k σ) as [[[a s1] tr1] σ1].
    by destruct (run respond (f a s1) σ1) as [[b tr2] σ2].
  - rewrite IH. destruct (run respond k σ) as [[[a s1] tr1] σ1].
    by destruct (run respond (f a s1) σ1) as [[b tr2] σ2].
Qed.
End SaveTodoUpdate.

(** C6, as the code has it: in update mode (edit target a non-zero
    identifier), with the three preconditions met and the todo-row update
    answered without error, [saveTodo] issues exactly four remote calls in
    this order: the update of title, description, due date and assignee of
    that identifier; the delete of all join rows of that identifier; one
    insert of a join row per selected label, in selection order (full
    replace); the re-fetch of the todo list.  The answer of the join-row
    delete is not inspected.  An error of the join-row insert is logged and
    nothing else.  No alert is shown.  The form is cleared.  The local todo
    list is replaced by the flattened re-fetched rows when the re-fetch
    reports no error, and is left as it was (the error logged) when it
    does. *)
Theorem saveTodo_update_full_replace
    {R : Type} (respond : forall c, R -> response c * R)
    (cl s : State) (σ : R) (eid : Z) :
  trim (title cl) <> [] -> assigneeId cl <> [] -> selectedLabelIds cl <> [] ->
  editingId cl = Some eid -> eid <> 0 ->
  let c1 := UpdateTodo eid (title cl) (description cl) (dueDate cl) (assigneeId cl) in
  let c2 := DeleteTodoLabels eid in
  let c3 := InsertTodoLabels (List.map (fun l => (eid, l)) (selectedLabelIds cl)) in
  let σ1 := snd (respond c1 σ) in
  let σ2 := snd (respond c2 σ1) in
  let r3 := fst (respond c3 σ2) in
  let σ3 := snd (respond c3 σ2) in
  let r4 := fst (respond SelectTodos σ3) in
  error (fst (respond c1 σ)) = None ->
  let out := run respond (saveTodo cl s) σ in
  let trace := snd (fst out) in
  out = ((tt, refetched r4 (clear_form s)),
         [EvRemote c1; EvRemote c2; EvRemote c3]
           ++ log_of (js "Labels update error:") (error r3)
           ++ [EvRemote SelectTodos]
           ++ log_of (js "Fetch error:") (error r4),
         snd (respond SelectTodos σ3)) /\
  List.filter is_remote trace =
    [EvRemote c1; EvRemote c2; EvRemote c3; EvRemote SelectTodos] /\
  (forall msg, EvAlert msg ∉ trace) /\
  (forall tag e, EvConsoleError tag e ∈ trace ->
     (tag = js "Labels update error:" /\ error r3 = Some e) \/
     (tag = js "Fetch error:" /\ error r4 = Some e)) /\
  (forall e, error r4 = Some e -> todos (snd (fst (fst out))) = todos s) /\
  (error r4 = None ->
     todos (snd (fst (fst out))) = List.map flatten_labels (default [] (data r4))).
Proof.
  intros Ht Ha Hl He He0 c1 c2 c3 σ1 σ2 r3 σ3 r4 Hok out trace.
  assert (Hout : out =
    ((tt, refetched r4 (clear_form s)),
     [EvRemote c1; EvRemote c2; EvRemote c3]
       ++ log_of (js "Labels update error:") (error r3)
       ++ [EvRemote SelectTodos]
       ++ log_of (js "Fetch error:") (error r4),
     snd (respond SelectTodos σ3))).
  { subst out trace r4 σ3 r3 σ2 σ1 c1 c2 c3. unfold saveTodo.
    apply str_truthy_true in Ht, Ha. rewrite Ht, Ha. simpl.
    destruct (selectedLabelIds cl) as [|l0 ls] eqn:Hsel; [done|].
    unfold editing. rewrite He. apply Z.eqb_neq in He0. rewrite He0.
    unfold todoLabelsData. rewrite Hsel.
    unfold bind, await, resetForm, fetchTodos, refetched. simpl.
    destruct (respond (UpdateTodo _ _ _ _ _) σ) as [r1 σ1].
    simpl in Hok |- *. rewrite Hok. simpl.
    destruct (respond (DeleteTodoLabels eid) σ1) as [r2 σ2]. simpl.
    destruct (respond (InsertTodoLabels _) σ2) as [r3 σ3]. simpl.
    destruct (error r3); simpl;
      destruct (respond SelectTodos σ3) as [r4 σ4]; simpl;
      destruct (error r4); simpl; try reflexivity;
      destruct (data r4); reflexivity. }
  split; [exact Hout|]. subst trace. rewrite Hout. simpl.
  split.
  { destruct (error r3), (error r4); reflexivity. }
  split.
  { intros msg Hin. destruct (error r3), (error r4); simpl in Hin; absurd_elem_of Hin. }
  split.
  { intros tag e Hin.
    destruct (error r3) as [e3|], (error r4) as [e4|]; simpl in Hin;
      repeat (apply elem_of_cons in Hin as [Hin|Hin];
              [try discriminate; injection Hin as -> ->; auto|]);
      by apply elem_of_nil in Hin. }
  split.
  - intros e Hr4. unfold refetched. by rewrite Hr4.
  - intros Hr4. unfold refetched. by rewrite Hr4.
Qed.

(** Counterexample to C6 as stated, in two runs of the same save.
    First run: the store rejects the join-row delete and accepts the rest;
    the trace holds the four remote calls and no log entry, so the failed
    delete is not logged.  Second run: the store accepts the three writes
    and rejects the re-fetch; the todo-row update is committed, yet the
    local list is the old one and its todo 5 still carries the old title,
    so the matching local todo is not updated in place. *)
Lemma saveTodo_update_not_as_stated :
  let c1 := UpdateTodo 5 (js "Buy oat milk") [] [] (js "u-alice") in
  let c3 := InsertTodoLabels [(5, js "l-urgent"); (5, js "l-home")] in
  (error (fst (scripted [] (DeleteTodoLabels 5) [true; false; false])) = Some store_error /\
   snd (fst (run (scripted []) (saveTodo editing_milk editing_milk)
               [false; true; false; false]))
     = [EvRemote c1; EvRemote (DeleteTodoLabels 5); EvRemote c3; EvRemote SelectTodos]) /\
  (error (fst (scripted [] c1 [false; false; false; true])) = None /\
   let s' := snd (fst (fst (run (scripted []) (saveTodo editing_milk editing_milk)
                              [false; false; false; true]))) in
   todos s' = todos editing_milk /\
   todos s' !! 1%nat = Some milk_todo /\
   Todo.id milk_todo = 5 /\
   Todo.title milk_todo <> title editing_milk).
Proof.
  intros c1 c3. split; [split; reflexivity|].
  split; [reflexivity|]. cbv zeta.
  split; [reflexivity|]. split; [reflexivity|]. split; [reflexivity|].
  discriminate.
Qed.

(** Witness of C6: the same save against a store that rejects the join-row
    insert only and returns todo 5 relabelled on the re-fetch. *)
Lemma saveTodo_update_full_replace_witness :
  let table :=
    [TodoRow.mk (Todo.mk 5 (js "Buy oat milk") (Some []) (Some []) false
                   (js "u-alice") (Some alice) None)
       (Some [TodoLabel.mk (js "l-urgent") (Some urgent);
              TodoLabel.mk (js "l-home") (Some home)])] in
  let out := run (scripted table) (saveTodo editing_milk editing_milk)
               [false; false; true] in
  snd (fst out) =
    [EvRemote (UpdateTodo 5 (js "Buy oat milk") [] [] (js "u-alice"));
     EvRemote (DeleteTodoLabels 5);
     EvRemote (InsertTodoLabels [(5, js "l-urgent"); (5, js "l-home")]);
     EvConsoleError (js "Labels update error:") store_error;
     EvRemote SelectTodos] /\
  List.map Todo.title (todos (snd (fst (fst out)))) = [js "Buy oat milk"] /\
  title (snd (fst (fst out))) = [] /\
  editingId (snd (fst (fst out))) = None.
Proof.
  intros table out.
  destruct (saveTodo_update_full_replace (scripted table) editing_milk editing_milk
              [false; false; true] 5) as (Hout & _);
    [discriminate | discriminate | discriminate | reflexivity | lia | reflexivity |].
  subst out. rewrite Hout. repeat split; reflexivity.
Defined.


(** * Further properties of the component *)

(** ** saveTodo: create mode and the failure of the todo-row write *)

Section SaveTodoRuns.
Context {R : Type} (respond : forall c, R -> response c * R).

Lemma valid_form_tests (cl : State) :
  valid_form cl ->
  str_truthy (trim (title cl)) = true /\
  str_truthy (assigneeId cl) = true /\
  (length (selectedLabelIds cl) =? 0)%nat = false /\
  (0 <? length (selectedLabelIds cl))%nat = true.
Proof.
  intros (Ht & Ha & Hl). apply str_truthy_true in Ht, Ha.
  destruct (selectedLabelIds cl); [done|]. by repeat split.
Qed.

(** The update branch when the todo-row update is rejected. *)
Lemma run_saveTodo_update_rejected (cl s : State) (σ : R) (eid : Z) (e : PgError) :
  valid_form cl -> editing cl = Some eid ->
  let c1 := UpdateTodo eid (title cl) (description cl) (dueDate cl) (assigneeId cl) in
  error (fst (respond c1 σ)) = Some e ->
  run respond (saveTodo cl s) σ =
    ((tt, s),
     [EvRemote c1; EvConsoleError (js "Update error:") e; EvAlert (message e)],
     snd (respond c1 σ)).
Proof.
  intros Hv He c1 Herr. destruct (valid_form_tests cl Hv) as (Ht & Ha & Hl & _).
  subst c1. unfold saveTodo. rewrite Ht, Ha, Hl, He. simpl.
  unfold bind, await, console_error, alert. simpl.
  destruct (respond (UpdateTodo _ _ _ _ _) σ) as [r1 σ1]. simpl in *.
  by rewrite Herr.
Qed.

(** The create branch, whatever the store answers. *)
Lemma run_saveTodo_create (cl s : State) (σ : R) :
  valid_form cl -> editing cl = None ->
  run respond (saveTodo cl s) σ =
    let c1 := InsertTodo (title cl) (description cl) (dueDate cl) (assigneeId cl) in
    let r1 := fst (respond c1 σ) in
    let σ1 := snd (respond c1 σ) in
    match error r1 with
    | Some e =>
        ((tt, s),
         [EvRemote c1; EvConsoleError (js "Insert error:") e; EvAlert (message e)],
         σ1)
    | None =>
        match data r1 with
        | Some (todoData0 :: _) =>
            let c2 := InsertTodoLabels (todoLabelsData cl (Todo.id todoData0)) in
            let r2 := fst (respond c2 σ1) in
            let σ2 := snd (respond c2 σ1) in
            ((tt, refetched (fst (respond SelectTodos σ2)) (clear_form s)),
             [EvRemote c1; EvRemote c2]
               ++ log_of (js "Labels insert error:") (error r2)
               ++ [EvRemote SelectTodos]
               ++ log_of (js "Fetch error:") (error (fst (respond SelectTodos σ2))),
             snd (respond SelectTodos σ2))
        | _ =>
            ((tt, refetched (fst (respond SelectTodos σ1)) (clear_form s)),
             [EvRemote c1; EvRemote SelectTodos]
               ++ log_of (js "Fetch error:") (error (fst (respond SelectTodos σ1))),
             snd (respond SelectTodos σ1))
        end
    end.
Proof.
  intros Hv He. destruct (valid_form_tests cl Hv) as (Ht & Ha & Hl & Hpos).
  unfold saveTodo. rewrite Ht, Ha, Hl, He. simpl. cbv zeta.
  unfold bind, await, console_error, alert, resetForm, fetchTodos, refetched. simpl.
  destruct (respond (InsertTodo _ _ _ _) σ) as [r1 σ1]. simpl.
  destruct (error r1) as [e|]; simpl; [reflexivity|].
  destruct (data r1) as [[|t0 rest]|]; simpl.
  - destruct (respond SelectTodos σ1) as [r4 σ4]; simpl.
    destruct (error r4); simpl; [reflexivity|]. by destruct (data r4).
  - rewrite Hpos. simpl.
    destruct (respond (InsertTodoLabels _) σ1) as [r2 σ2]. simpl.
    destruct (error r2); simpl;
      destruct (respond SelectTodos σ2) as [r4 σ4]; simpl;
      destruct (error r4); simpl; try reflexivity; by destruct (data r4).
  - destruct (respond SelectTodos σ1) as [r4 σ4]; simpl.
    destruct (error r4); simpl; [reflexivity|]. by destruct (data r4).
Qed.

(** The update branch once the todo-row update is accepted. *)
Lemma run_saveTodo_update_accepted (cl s : State) (σ : R) (eid : Z) :
  valid_form cl -> editing cl = Some eid ->
  let c1 := UpdateTodo eid (title cl) (description cl) (dueDate cl) (assigneeId cl) in
  error (fst (respond c1 σ)) = None ->
  run respond (saveTodo cl s) σ =
    let σ1 := snd (respond c1 σ) in
    let σ2 := snd (respond (DeleteTodoLabels eid) σ1) in
    let c3 := InsertTodoLabels (todoLabelsData cl eid) in
    let r4 := fst (respond SelectTodos (snd (respond c3 σ2))) in
    ((tt, refetched r4 (clear_form s)),
     [EvRemote c1; EvRemote (DeleteTodoLabels eid); EvRemote c3]
       ++ log_of (js "Labels update error:") (error (fst (respond c3 σ2)))
       ++ [EvRemote SelectTodos]
       ++ log_of (js "Fetch error:") (error r4),
     snd (respond SelectTodos (snd (respond c3 σ2)))).
Proof.
  intros Hv He c1 Hok. destruct (valid_form_tests cl Hv) as (Ht & Ha & Hl & Hpos).
  subst c1. unfold saveTodo. rewrite Ht, Ha, Hl, He.
  simpl. cbv zeta.
  unfold bind, await, resetForm, fetchTodos, refetched. simpl.
  destruct (respond (UpdateTodo _ _ _ _ _) σ) as [r1 σ1].
  simpl in Hok |- *. rewrite Hok. simpl.
  destruct (respond (DeleteTodoLabels eid) σ1) as [r2 σ2]. simpl.
  rewrite Hpos. simpl.
  destruct (respond (InsertTodoLabels _) σ2) as [r3 σ3]. simpl.
  destruct (error r3); simpl;
    destruct (respond SelectTodos σ3) as [r4 σ4]; simpl;
    destruct (error r4); simpl; try reflexivity; by destruct (data r4).
Qed.
End SaveTodoRuns.

Lemma refetched_form (r : result (list TodoRow.t)) (s : State) :
  refetched r (clear_form s) = update_todos (fun _ => todos (refetched r (clear_form s))) (clear_form s).
Proof. unfold refetched. destruct (error r); reflexivity. Qed.

Lemma not_elem_of_log_alert (tag : jsstring) (e : option PgError) (msg : jsstring) :
  EvAlert msg ∉ log_of tag e.
Proof. destruct e; simpl; intros H; absurd_elem_of H. Qed.

Lemma filter_remote_log (tag : jsstring) (e : option PgError) :
  List.filter is_remote (log_of tag e) = [].
Proof. by destruct e. Qed.

(** X1: in create mode (no edit target, or edit target 0) with a valid
    form, when the store accepts the todo insert and returns the new row,
    [saveTodo] issues exactly three remote calls in this order: the insert
    of the form's title, description, due date and assignee; one insert of
    join rows, each pairing the identifier of the returned row with a
    selected label, in selection order; the re-fetch of the list.  No alert
    is shown and the form is cleared while users and labels are kept. *)
Theorem saveTodo_create_links_selected_labels
    {R : Type} (respond : forall c, R -> response c * R)
    (cl s : State) (σ : R) (created : Todo.t) (others : list Todo.t) :
  valid_form cl -> editing cl = None ->
  let c1 := InsertTodo (title cl) (description cl) (dueDate cl) (assigneeId cl) in
  error (fst (respond c1 σ)) = None ->
  data (fst (respond c1 σ)) = Some (created :: others) ->
  let out := run respond (saveTodo cl s) σ in
  let s' := snd (fst (fst out)) in
  exists rows,
    List.filter is_remote (snd (fst out)) =
      [EvRemote c1; EvRemote (InsertTodoLabels rows); EvRemote SelectTodos] /\
    List.map snd rows = selectedLabelIds cl /\
    Forall (fun row => fst row = Todo.id created) rows /\
    (forall msg, EvAlert msg ∉ snd (fst out)) /\
    s' = update_todos (fun _ => todos s') (clear_form s).
Proof.
  intros Hv He c1 Hok Hdata out s'. subst out s'.
  rewrite (run_saveTodo_create respond cl s σ Hv He). cbv zeta. fold c1.
  rewrite Hok, Hdata. simpl.
  exists (todoLabelsData cl (Todo.id created)).
  split.
  { repeat (simpl; rewrite ?List.filter_app, ?filter_remote_log). reflexivity. }
  split.
  { unfold todoLabelsData. rewrite List.map_map. simpl. apply List.map_id. }
  split.
  { unfold todoLabelsData. apply Forall_forall. intros row Hrow.
    apply list_elem_of_In, in_map_iff in Hrow as (l & <- & _). reflexivity. }
  split.
  { intros msg Hin.
    apply elem_of_cons in Hin as [Hin|Hin]; [discriminate|].
    apply elem_of_cons in Hin as [Hin|Hin]; [discriminate|].
    apply elem_of_app in Hin as [Hin|Hin]; [by apply not_elem_of_log_alert in Hin|].
    apply elem_of_cons in Hin as [Hin|Hin]; [discriminate|].
    by apply not_elem_of_log_alert in Hin. }
  apply refetched_form.
Qed.

(** Witness of X1: "Call mum" for Bob with two labels; the store assigns
    identifier 100. *)
Lemma saveTodo_create_links_selected_labels_witness :
  let cl := fill_form (js "Call mum") [] [] (js "u-bob") [js "l-home"; js "l-urgent"]
              None sample_state in
  valid_form cl /\
  List.filter is_remote (snd (fst (run (scripted []) (saveTodo cl cl) []))) =
    [EvRemote (InsertTodo (js "Call mum") [] [] (js "u-bob"));
     EvRemote (InsertTodoLabels [(100, js "l-home"); (100, js "l-urgent")]);
     EvRemote SelectTodos].
Proof.
  intros cl.
  assert (Hv : valid_form cl) by (repeat split; discriminate).
  split; [exact Hv|].
  destruct (saveTodo_create_links_selected_labels (scripted []) cl cl []
              (Todo.mk 100 (js "Call mum") (Some []) (Some []) false (js "u-bob")
                 None None) [] Hv eq_refl eq_refl eq_refl)
    as (rows & Htrace & _).
  reflexivity.
Defined.

(** X2: with a valid form, when the store rejects the write on the todo
    row (the update in edit mode, the insert in create mode), [saveTodo]
    logs the error, alerts the store's message and stops: that write is the
    only remote call (no join-row call, no re-fetch) and the local state,
    the form included, is left as it was. *)
Theorem saveTodo_rejected_write_aborts
    {R : Type} (respond : forall c, R -> response c * R)
    (cl s : State) (σ : R) (e : PgError) :
  valid_form cl ->
  (forall eid,
     editing cl = Some eid ->
     let c1 := UpdateTodo eid (title cl) (description cl) (dueDate cl) (assigneeId cl) in
     error (fst (respond c1 σ)) = Some e ->
     run respond (saveTodo cl s) σ =
       ((tt, s),
        [EvRemote c1; EvConsoleError (js "Update error:") e; EvAlert (message e)],
        snd (respond c1 σ))) /\
  (editing cl = None ->
   let c1 := InsertTodo (title cl) (description cl) (dueDate cl) (assigneeId cl) in
   error (fst (respond c1 σ)) = Some e ->
   run respond (saveTodo cl s) σ =
     ((tt, s),
      [EvRemote c1; EvConsoleError (js "Insert error:") e; EvAlert (message e)],
      snd (respond c1 σ))).
Proof.
  intros Hv. split.
  - intros eid He c1 Herr. by apply run_saveTodo_update_rejected.
  - intros He c1 Herr. rewrite (run_saveTodo_create respond cl s σ Hv He).
    cbv zeta. fold c1. by rewrite Herr.
Qed.

(** Witness of X2: the edit of "Buy milk" against a store that is down;
    the form keeps the new title. *)
Lemma saveTodo_rejected_write_aborts_witness :
  valid_form editing_milk /\ editing editing_milk = Some 5 /\
  run (scripted []) (saveTodo editing_milk editing_milk) [true] =
    ((tt, editing_milk),
     [EvRemote (UpdateTodo 5 (js "Buy oat milk") [] [] (js "u-alice"));
      EvConsoleError (js "Update error:") store_error;
      EvAlert (js "connection lost")],
     []).
Proof.
  assert (Hv : valid_form editing_milk) by (repeat split; discriminate).
  split; [exact Hv|]. split; [reflexivity|].
  destruct (saveTodo_rejected_write_aborts (scripted []) editing_milk editing_milk
              [true] store_error Hv) as [Hupd _].
  exact (Hupd 5 eq_refl eq_refl).
Defined.

(** X3: in create mode with a valid form, when the store accepts the todo
    insert but returns no row (no data, or an empty array), no join row is
    inserted: the remote calls are the todo insert and the re-fetch only.
    The selected labels are dropped without a log or an alert, and the form
    is cleared all the same. *)
Theorem saveTodo_create_without_returned_row
    {R : Type} (respond : forall c, R -> response c * R)
    (cl s : State) (σ : R) :
  valid_form cl -> editing cl = None ->
  let c1 := InsertTodo (title cl) (description cl) (dueDate cl) (assigneeId cl) in
  error (fst (respond c1 σ)) = None ->
  data (fst (respond c1 σ)) = None \/ data (fst (respond c1 σ)) = Some [] ->
  let out := run respond (saveTodo cl s) σ in
  let s' := snd (fst (fst out)) in
  List.filter is_remote (snd (fst out)) = [EvRemote c1; EvRemote SelectTodos] /\
  (forall rows, EvRemote (InsertTodoLabels rows) ∉ snd (fst out)) /\
  (forall msg, EvAlert msg ∉ snd (fst out)) /\
  (forall tag e, EvConsoleError tag e ∈ snd (fst out) -> tag = js "Fetch error:") /\
  s' = update_todos (fun _ => todos s') (clear_form s).
Proof.
  intros Hv He c1 Hok Hdata out s'. subst out s'.
  rewrite (run_saveTodo_create respond cl s σ Hv He). cbv zeta. fold c1.
  rewrite Hok.
  set (r4 := fst (respond SelectTodos (snd (respond c1 σ)))).
  assert (Hbranch :
    match data (fst (respond c1 σ)) with
    | Some (todoData0 :: _) =>
        ((tt, refetched (fst (respond SelectTodos
                 (snd (respond (InsertTodoLabels (todoLabelsData cl (Todo.id todoData0)))
                         (snd (respond c1 σ))))))
                (clear_form s)),
         [EvRemote c1; EvRemote (InsertTodoLabels (todoLabelsData cl (Todo.id todoData0)))]
           ++ log_of (js "Labels insert error:")
                (error (fst (respond (InsertTodoLabels (todoLabelsData cl (Todo.id todoData0)))
                               (snd (respond c1 σ)))))
           ++ [EvRemote SelectTodos]
           ++ log_of (js "Fetch error:")
                (error (fst (respond SelectTodos
                   (snd (respond (InsertTodoLabels (todoLabelsData cl (Todo.id todoData0)))
                           (snd (respond c1 σ))))))),
         snd (respond SelectTodos
                (snd (respond (InsertTodoLabels (todoLabelsData cl (Todo.id todoData0)))
                        (snd (respond c1 σ))))))
    | _ =>
        ((tt, refetched r4 (clear_form s)),
         [EvRemote c1; EvRemote SelectTodos] ++ log_of (js "Fetch error:") (error r4),
         snd (respond SelectTodos (snd (respond c1 σ))))
    end =
    ((tt, refetched r4 (clear_form s)),
     [EvRemote c1; EvRemote SelectTodos] ++ log_of (js "Fetch error:") (error r4),
     snd (respond SelectTodos (snd (respond c1 σ))))).
  { destruct Hdata as [-> | ->]; reflexivity. }
  rewrite Hbranch. simpl.
  split; [by rewrite filter_remote_log|].
  split.
  { intros rows Hin.
    apply elem_of_cons in Hin as [Hin|Hin]; [discriminate|].
    apply elem_of_cons in Hin as [Hin|Hin]; [discriminate|].
    destruct (error r4); simpl in Hin; absurd_elem_of Hin. }
  split.
  { intros msg Hin.
    apply elem_of_cons in Hin as [Hin|Hin]; [discriminate|].
    apply elem_of_cons in Hin as [Hin|Hin]; [discriminate|].
    by apply not_elem_of_log_alert in Hin. }
  split.
  { intros tag e Hin.
    apply elem_of_cons in Hin as [Hin|Hin]; [discriminate|].
    apply elem_of_cons in Hin as [Hin|Hin]; [discriminate|].
    destruct (error r4); simpl in Hin.
    - apply list_elem_of_singleton in Hin. by injection Hin as -> _.
    - by apply elem_of_nil in Hin. }
  apply refetched_form.
Qed.

(** Witness of X3: a store that returns no rows; "Call mum" is inserted
    and its two labels are never linked. *)
Lemma saveTodo_create_without_returned_row_witness :
  let cl := fill_form (js "Call mum") [] [] (js "u-bob") [js "l-home"; js "l-urgent"]
              None sample_state in
  valid_form cl /\
  snd (fst (run rowless (saveTodo cl cl) 0%nat)) =
    [EvRemote (InsertTodo (js "Call mum") [] [] (js "u-bob")); EvRemote SelectTodos] /\
  todos (snd (fst (fst (run rowless (saveTodo cl cl) 0%nat)))) = [] /\
  selectedLabelIds (snd (fst (fst (run rowless (saveTodo cl cl) 0%nat)))) = [].
Proof.
  intros cl.
  assert (Hv : valid_form cl) by (repeat split; discriminate).
  split; [exact Hv|].
  destruct (saveTodo_create_without_returned_row rowless cl cl 0%nat Hv eq_refl
              eq_refl (or_introl eq_refl)) as (_ & _ & _ & _ & Hs).
  split; [reflexivity|]. rewrite Hs. split; reflexivity.
Defined.

(** X4: whatever the form and the store, [saveTodo] ends in one of two
    ways.  Either it never reaches the re-fetch, and then the local state is
    untouched; or it reaches it, and then every form field is empty, the
    edit target is unset, and a save from the next render is rejected with
    "Title is required" without any remote call: a second click after the
    re-render cannot write the same todo again. *)
Theorem saveTodo_clears_form_or_keeps_state
    {R : Type} (respond : forall c, R -> response c * R)
    (cl s : State) (σ : R) :
  let out := run respond (saveTodo cl s) σ in
  let s' := snd (fst (fst out)) in
  (EvRemote SelectTodos ∉ snd (fst out) -> s' = s) /\
  (EvRemote SelectTodos ∈ snd (fst out) ->
     s' = update_todos (fun _ => todos s') (clear_form s) /\
     title s' = [] /\ assigneeId s' = [] /\ selectedLabelIds s' = [] /\
     editingId s' = None /\
     forall s2 σ2,
       run respond (saveTodo s' s2) σ2
         = ((tt, s2), [EvAlert (js "Title is required")], σ2)).
Proof.
  intros out s'. subst out s'.
  assert (Hcleared : forall r,
    let s' := refetched r (clear_form s) in
    s' = update_todos (fun _ => todos s') (clear_form s) /\
    title s' = [] /\ assigneeId s' = [] /\ selectedLabelIds s' = [] /\
    editingId s' = None /\
    forall s2 σ2,
      run respond (saveTodo s' s2) σ2
        = ((tt, s2), [EvAlert (js "Title is required")], σ2)).
  { intros r. cbv zeta. split; [apply refetched_form|].
    unfold refetched. destruct (error r); repeat split. }
  destruct (str_truthy (trim (title cl))) eqn:Ht.
  2:{ unfold saveTodo. rewrite Ht. simpl. split; [done|].
      intros Hin. absurd_elem_of Hin. }
  destruct (str_truthy (assigneeId cl)) eqn:Ha.
  2:{ unfold saveTodo. rewrite Ht, Ha. simpl. split; [done|].
      intros Hin. absurd_elem_of Hin. }
  destruct (selectedLabelIds cl) as [|l0 ls] eqn:Hl.
  { unfold saveTodo. rewrite Ht, Ha, Hl. simpl. split; [done|].
    intros Hin. absurd_elem_of Hin. }
  assert (Hv : valid_form cl).
  { apply str_truthy_true in Ht, Ha. repeat split; [done|done|]. by rewrite Hl. }
  destruct (editing cl) as [eid|] eqn:He.
  - destruct (error (fst (respond
        (UpdateTodo eid (title cl) (description cl) (dueDate cl) (assigneeId cl)) σ)))
      as [e|] eqn:Herr.
    + rewrite (run_saveTodo_update_rejected respond cl s σ eid e Hv He Herr).
      simpl. split; [done|]. intros Hin. absurd_elem_of Hin.
    + rewrite (run_saveTodo_update_accepted respond cl s σ eid Hv He Herr).
      cbv zeta. simpl. split; [|intros _; apply Hcleared].
      intros Hnot. exfalso. apply Hnot.
      do 3 apply list_elem_of_further.
      apply elem_of_app. right. apply list_elem_of_here.
  - rewrite (run_saveTodo_create respond cl s σ Hv He). cbv zeta.
    destruct (error (fst (respond (InsertTodo _ _ _ _) σ))) as [e|].
    + simpl. split; [done|]. intros Hin. absurd_elem_of Hin.
    + destruct (data (fst (respond (InsertTodo _ _ _ _) σ))) as [[|t0 rest]|]; simpl.
      * split; [|intros _; apply Hcleared].
        intros Hnot. exfalso. apply Hnot.
        apply list_elem_of_further, list_elem_of_here.
      * split; [|intros _; apply Hcleared].
        intros Hnot. exfalso. apply Hnot.
        do 2 apply list_elem_of_further.
        apply elem_of_app. right. apply list_elem_of_here.
      * split; [|intros _; apply Hcleared].
        intros Hnot. exfalso. apply Hnot.
        apply list_elem_of_further, list_elem_of_here.
Qed.

(** Witness of X4: the edit of "Buy milk" is saved; the next render's save
    is rejected. *)
Lemma saveTodo_clears_form_or_keeps_state_witness :
  let out := run (scripted []) (saveTodo editing_milk editing_milk) [] in
  EvRemote SelectTodos ∈ snd (fst out) /\
  title (snd (fst (fst out))) = [] /\
  run (scripted []) (saveTodo (snd (fst (fst out))) (snd (fst (fst out)))) []
    = ((tt, snd (fst (fst out))), [EvAlert (js "Title is required")], []).
Proof.
  intros out.
  assert (Hin : EvRemote SelectTodos ∈ snd (fst out)).
  { do 3 apply list_elem_of_further. apply list_elem_of_here. }
  split; [exact Hin|].
  destruct (saveTodo_clears_form_or_keeps_state (scripted []) editing_milk
              editing_milk []) as [_ H].
  destruct (H Hin) as (_ & Ht & _ & _ & _ & Hre).
  split; [exact Ht|apply Hre].
Defined.

(** ** toggleTodo: failures, absent identifiers, repeated clicks *)

Lemma patch_completed_ids (id : Z) (c : bool) (l : list Todo.t) :
  List.map Todo.id (patch_completed id c l) = List.map Todo.id l.
Proof.
  unfold patch_completed. rewrite List.map_map. apply List.map_ext.
  intros t. by destruct (Todo.id t =? id).
Qed.

Lemma patch_completed_absent (id : Z) (c : bool) (l : list Todo.t) :
  id ∉ List.map Todo.id l -> patch_completed id c l = l.
Proof.
  unfold patch_completed. induction l as [|t l IH]; simpl; [done|].
  intros Hnot. apply not_elem_of_cons in Hnot as [Hne Hnot].
  rewrite IH by done. destruct (Z.eqb_spec (Todo.id t) id); congruence.
Qed.

Lemma patch_completed_idempotent (id : Z) (c : bool) (l : list Todo.t) :
  patch_completed id c (patch_completed id c l) = patch_completed id c l.
Proof.
  unfold patch_completed. rewrite List.map_map. apply List.map_ext.
  intros t. destruct (Todo.id t =? id) eqn:He; simpl; by rewrite He.
Qed.

Lemma update_todos_same (s : State) : update_todos (fun _ => todos s) s = s.
Proof. by destruct s. Qed.



(** X6: whatever the store answers, [toggleTodo] changes nothing but the
    todo list, keeps the identifiers of the list in their order, and leaves
    the list itself untouched when no todo carries the identifier (the
    remote update is issued all the same). *)
Theorem toggleTodo_keeps_identifiers
    {R : Type} (respond : forall c, R -> response c * R)
    (id : Z) (completed : bool) (s : State) (σ : R) :
  let out := run respond (toggleTodo id completed s) σ in
  let s' := snd (fst (fst out)) in
  s' = update_todos (fun _ => todos s') s /\
  List.map Todo.id (todos s') = List.map Todo.id (todos s) /\
  (id ∉ List.map Todo.id (todos s) -> s' = s) /\
  List.filter is_remote (snd (fst out)) = [EvRemote (UpdateTodoCompleted id (negb completed))].
Proof.
  intros out s'. subst out s'. rewrite run_toggleTodo. cbv zeta. cbn [fst snd].
  destruct (error (fst (respond (UpdateTodoCompleted id (negb completed)) σ))).
  { split; [symmetry; apply update_todos_same|]. by repeat split. }
  destruct (data (fst (respond (UpdateTodoCompleted id (negb completed)) σ))).
  2:{ split; [symmetry; apply update_todos_same|]. by repeat split. }
  split; [reflexivity|]. split; [apply patch_completed_ids|].
  split; [|reflexivity].
  intros Habs. unfold update_todos.
  rewrite (patch_completed_absent id completed (todos s) Habs). by destruct s.
Qed.

(** Witness of X6: a toggle of identifier 9, which is not in the sample
    list, accepted by the store. *)
Lemma toggleTodo_keeps_identifiers_witness :
  (9 ∉ List.map Todo.id (todos sample_state)) /\
  run (scripted []) (toggleTodo 9 false sample_state) [] =
    ((tt, sample_state), [EvRemote (UpdateTodoCompleted 9 true)], []).
Proof.
  assert (Habs : 9 ∉ List.map Todo.id (todos sample_state)).
  { intros Hin. absurd_elem_of Hin. }
  split; [exact Habs|].
  destruct (toggleTodo_keeps_identifiers (scripted []) 9 false sample_state [])
    as (_ & _ & H & _).
  specialize (H Habs). reflexivity.
Defined.

(** X7: two clicks on the same checkbox before the list is re-rendered
    call [toggleTodo] with the same identifier and the same flag.  When both
    updates succeed, the second changes nothing locally: the flag of every
    todo with that identifier is the negation of the flag that was passed,
    not the original one, and the store has received the same update
    twice. *)
Theorem toggleTodo_same_render_twice
    {R : Type} (respond : forall c, R -> response c * R)
    (id : Z) (completed : bool) (s : State) (σ : R) :
  let c := UpdateTodoCompleted id (negb completed) in
  succeeded (fst (respond c σ)) ->
  succeeded (fst (respond c (snd (respond c σ)))) ->
  let out1 := run respond (toggleTodo id completed s) σ in
  let s1 := snd (fst (fst out1)) in
  let out2 := run respond (toggleTodo id completed s1) (snd out1) in
  snd (fst (fst out2)) = s1 /\
  snd (fst out1) ++ snd (fst out2) = [EvRemote c; EvRemote c] /\
  Forall (fun t => Todo.id t = id -> Todo.completed t = negb completed) (todos s1).
Proof.
  intros c Hok1 Hok2 out1 s1 out2. subst out2 s1 out1.
  rewrite (run_toggleTodo_ok respond id completed s σ Hok1). cbn [fst snd].
  rewrite (run_toggleTodo_ok respond id completed _ _ Hok2). cbn [fst snd].
  split.
  { unfold update_todos at 1. simpl. by rewrite patch_completed_idempotent. }
  split; [reflexivity|].
  apply Forall_forall. intros t Hin He.
  unfold patch_completed in Hin.
  apply list_elem_of_In, in_map_iff in Hin as (t0 & <- & _).
  destruct (Z.eqb_spec (Todo.id t0) id) as [_|Hne]; [reflexivity|].
  simpl in He. contradiction.
Qed.

(** Witness of X7: two clicks on "Buy milk" (not completed) in one render:
    it ends completed. *)
Lemma toggleTodo_same_render_twice_witness :
  let out1 := run (scripted []) (toggleTodo 5 false sample_state) [] in
  let out2 := run (scripted []) (toggleTodo 5 false (snd (fst (fst out1)))) [] in
  snd (fst (fst out2)) = snd (fst (fst out1)) /\
  List.map Todo.completed (todos (snd (fst (fst out2)))) = [true; true].
Proof.
  intros out1 out2.
  destruct (toggleTodo_same_render_twice (scripted []) 5 false sample_state [])
    as (H & _).
  - split; [reflexivity|]. by eexists.
  - split; [reflexivity|]. by eexists.
  - split; [exact H|reflexivity].
Defined.

(** ** deleteTodo: absent identifiers, repetition, freed assignees *)

Lemma List_filter_sublist {A : Type} (f : A -> bool) (l : list A) :
  List.filter f l `sublist_of` l.
Proof.
  induction l as [|x l IH]; simpl; [constructor|].
  destruct (f x); by constructor.
Qed.

Lemma List_filter_mono {A : Type} (f g : A -> bool) (l : list A) :
  (forall x, f x = true -> g x = true) ->
  List.filter f l `sublist_of` List.filter g l.
Proof.
  intros Hfg. induction l as [|x l IH]; simpl; [constructor|].
  destruct (f x) eqn:Hf.
  - rewrite (Hfg x Hf). by constructor.
  - destruct (g x); [by constructor|done].
Qed.

Lemma List_filter_all {A : Type} (f : A -> bool) (l : list A) :
  (forall x, x ∈ l -> f x = true) -> List.filter f l = l.
Proof.
  induction l as [|x l IH]; simpl; intros Hall; [done|].
  rewrite (Hall x) by apply list_elem_of_here.
  rewrite IH; [done|]. intros y Hy. apply Hall. by apply list_elem_of_further.
Qed.

Lemma remove_id_absent (id : Z) (l : list Todo.t) :
  id ∉ List.map Todo.id l ->
  List.filter (fun t => negb (Todo.id t =? id)) l = l.
Proof.
  intros Habs. apply List_filter_all. intros t Ht.
  apply negb_true_iff, Z.eqb_neq. intros He. apply Habs.
  apply list_elem_of_In, in_map_iff. exists t. split; [done|].
  by apply list_elem_of_In.
Qed.

Lemma remove_id_gone (id : Z) (l : list Todo.t) :
  id ∉ List.map Todo.id (List.filter (fun t => negb (Todo.id t =? id)) l).
Proof.
  intros Hin. apply list_elem_of_In, in_map_iff in Hin as (t & He & Ht).
  apply filter_In in Ht as [_ Hne]. apply negb_true_iff, Z.eqb_neq in Hne.
  contradiction.
Qed.

(** X8: whatever the store answers, [deleteTodo] changes nothing but the
    todo list, and the new list is a sub-sequence of the old one.  When no
    todo carries the identifier the list is unchanged, although both remote
    deletes are issued.  After a delete that the store accepted no todo
    carries the identifier, so deleting it again leaves the list as it is
    whatever the store answers then. *)
Theorem deleteTodo_keeps_rest
    {R : Type} (respond : forall c, R -> response c * R)
    (id : Z) (s : State) (σ : R) :
  let out := run respond (deleteTodo id s) σ in
  let s' := snd (fst (fst out)) in
  let r2 := fst (respond (DeleteTodo id) (snd (respond (DeleteTodoLabels id) σ))) in
  s' = update_todos (fun _ => todos s') s /\
  todos s' `sublist_of` todos s /\
  ((id ∉ List.map Todo.id (todos s)) ->
     s' = s /\
     List.filter is_remote (snd (fst out)) =
       [EvRemote (DeleteTodoLabels id); EvRemote (DeleteTodo id)]) /\
  (error r2 = None ->
     (id ∉ List.map Todo.id (todos s')) /\
     forall σ', snd (fst (fst (run respond (deleteTodo id s') σ'))) = s').
Proof.
  intros out s' r2. subst out s'. rewrite run_deleteTodo. cbv zeta. fold r2.
  assert (Hstable : forall (s0 : State) σ0,
            id ∉ List.map Todo.id (todos s0) ->
            snd (fst (fst (run respond (deleteTodo id s0) σ0))) = s0).
  { intros s0 σ0 Habs. rewrite run_deleteTodo. cbv zeta.
    destruct (error _); cbn [fst snd]; [done|].
    unfold update_todos. rewrite (remove_id_absent id (todos s0) Habs).
    by destruct s0. }
  destruct (error r2) as [e|] eqn:Herr; cbn [fst snd].
  - split; [symmetry; apply update_todos_same|]. split; [done|].
    split; [|discriminate]. intros _. by split.
  - split; [reflexivity|].
    change (todos (update_todos ?f s)) with (f (todos s)).
    split; [apply List_filter_sublist|]. split.
    + intros Habs. split; [|reflexivity]. unfold update_todos.
      rewrite (remove_id_absent id (todos s) Habs). by destruct s.
    + intros _. split; [apply remove_id_gone|].
      intros σ'. apply Hstable. apply remove_id_gone.
Qed.

(** Witness of X8: todo 5 is deleted; a second delete, which the store
    rejects, changes nothing. *)
Lemma deleteTodo_keeps_rest_witness :
  let s' := snd (fst (fst (run (scripted []) (deleteTodo 5 sample_state) []))) in
  todos s' = [rent_todo] /\
  snd (fst (fst (run (scripted []) (deleteTodo 5 s') [false; true]))) = s'.
Proof.
  intros s'.
  destruct (deleteTodo_keeps_rest (scripted []) 5 sample_state []) as (_ & _ & _ & H).
  destruct (H eq_refl) as [_ Hagain].
  split; [reflexivity|apply Hagain].
Defined.

(** X9: whatever the store answers, every user offered as an assignee
    before [deleteTodo] is still offered after it, in the same relative
    order: removing a todo can only free assignees. *)
Theorem deleteTodo_frees_assignees
    {R : Type} (respond : forall c, R -> response c * R)
    (id : Z) (s : State) (σ : R) :
  let s' := snd (fst (fst (run respond (deleteTodo id s) σ))) in
  availableUsers s `sublist_of` availableUsers s' /\
  (forall u, u ∈ availableUsers s -> u ∈ availableUsers s').
Proof.
  intros s'.
  assert (Hsub : availableUsers s `sublist_of` availableUsers s').
  { subst s'. rewrite run_deleteTodo. cbv zeta.
    destruct (error _); cbn [fst snd]; [done|].
    unfold availableUsers.
    change (users (update_todos ?f s)) with (users s).
    change (assigneeId (update_todos ?f s)) with (assigneeId s).
    apply List_filter_mono. intros u Hu.
    apply orb_true_iff in Hu as [Hfree|Hsel]; apply orb_true_iff; [left|by right].
    apply negb_true_iff, bool_decide_eq_false in Hfree.
    apply negb_true_iff, bool_decide_eq_false. intros Hin. apply Hfree.
    apply elem_of_assignedIds in Hin as (t & Ht & Ha & Htest).
    apply elem_of_assignedIds. exists t. split; [|by split].
    change (todos (update_todos ?f s)) with (f (todos s)) in Ht.
    apply list_elem_of_In, filter_In in Ht as [Ht _]. by apply list_elem_of_In. }
  split; [exact Hsub|].
  intros u Hu. by eapply elem_of_sublist.
Qed.

(** Witness of X9: Alice is offered, being selected in the form;
    deleting todo 7 frees Bob as well. *)
Lemma deleteTodo_frees_assignees_witness :
  let s := fill_form [] [] [] (js "u-alice") [] None sample_state in
  let s' := snd (fst (fst (run (scripted []) (deleteTodo 7 s) []))) in
  availableUsers s = [alice] /\ availableUsers s' = [alice; bob] /\
  alice ∈ availableUsers s'.
Proof.
  intros s s'.
  destruct (deleteTodo_frees_assignees (scripted []) 7 s []) as [_ H].
  split; [reflexivity|]. split; [reflexivity|].
  apply H. apply list_elem_of_here.
Defined.

(** ** fetchTodos *)

Lemma flatten_labels_columns (row : TodoRow.t) :
  Todo.id (flatten_labels row) = Todo.id (TodoRow.todo row) /\
  Todo.title (flatten_labels row) = Todo.title (TodoRow.todo row) /\
  Todo.completed (flatten_labels row) = Todo.completed (TodoRow.todo row) /\
  Todo.assignee_id (flatten_labels row) = Todo.assignee_id (TodoRow.todo row) /\
  Todo.assignee (flatten_labels row) = Todo.assignee (TodoRow.todo row).
Proof. by repeat split. Qed.

(** The labels of a flattened row: the embedded labels of its join rows
    that are not null, in order. *)
Lemma flatten_labels_members (row : TodoRow.t) (l : Label.t) :
  l ∈ default [] (Todo.labels (flatten_labels row)) <->
  exists tl, tl ∈ default [] (TodoRow.labels row) /\ TodoLabel.labels tl = Some l.
Proof.
  unfold flatten_labels. simpl.
  destruct (TodoRow.labels row) as [tls|]; simpl.
  - rewrite list_elem_of_omap. naive_solver.
  - split; [intros H; by apply elem_of_nil in H|].
    intros (tl & H & _). by apply elem_of_nil in H.
Qed.

(** X10: [fetchTodos] issues the one todo query.  On an error it logs and
    keeps the whole state.  Otherwise it replaces the todo list, whatever it
    was, by the returned rows in the store's order (by nothing when no rows
    are returned), keeping every todo column and the joined assignee; every
    todo of the new list has a label array, made of the non-null labels
    embedded in its join rows, so a join row whose label is missing adds no
    label.  Nothing but the todo list changes. *)
Theorem fetchTodos_replaces_or_keeps
    {R : Type} (respond : forall c, R -> response c * R) (s : State) (σ : R) :
  let r := fst (respond SelectTodos σ) in
  let out := run respond (fetchTodos s) σ in
  let s' := snd (fst (fst out)) in
  List.filter is_remote (snd (fst out)) = [EvRemote SelectTodos] /\
  (forall e, error r = Some e ->
     s' = s /\ snd (fst out) = [EvRemote SelectTodos; EvConsoleError (js "Fetch error:") e]) /\
  (error r = None ->
     snd (fst out) = [EvRemote SelectTodos] /\
     s' = update_todos (fun _ => todos s') s /\
     (forall s0, todos (snd (fst (fst (run respond (fetchTodos s0) σ)))) = todos s') /\
     (data r = None -> todos s' = []) /\
     List.map Todo.id (todos s') =
       List.map (fun row => Todo.id (TodoRow.todo row)) (default [] (data r)) /\
     Forall (fun t => is_Some (Todo.labels t)) (todos s') /\
     (forall i row, default [] (data r) !! i = Some row ->
        exists t, todos s' !! i = Some t /\
          Todo.with_labels [] t = Todo.with_labels [] (TodoRow.todo row) /\
          forall l, l ∈ default [] (Todo.labels t) <->
            exists tl, tl ∈ default [] (TodoRow.labels row) /\
                       TodoLabel.labels tl = Some l)).
Proof.
  intros r out s'. subst out s'.
  assert (Hall : forall s0,
            run respond (fetchTodos s0) σ =
              ((tt, refetched r s0),
               EvRemote SelectTodos :: log_of (js "Fetch error:") (error r),
               snd (respond SelectTodos σ)))
    by (intros s0; apply run_fetchTodos).
  rewrite Hall. cbn [fst snd].
  split; [by destruct (error r)|].
  split.
  { intros e He. unfold refetched. rewrite He. by split. }
  intros Hok. unfold refetched. rewrite Hok. cbn [log_of].
  split; [reflexivity|]. split; [reflexivity|].
  split.
  { intros s0. rewrite Hall. cbn [fst snd]. unfold refetched. by rewrite Hok. }
  change (todos (update_todos ?f s)) with (f (todos s)). cbv beta.
  split; [by intros ->|].
  split.
  { rewrite List.map_map. apply List.map_ext. intros row. reflexivity. }
  split.
  { apply Forall_forall. intros t Ht.
    apply list_elem_of_In, in_map_iff in Ht as (row & <- & _). by eexists. }
  intros i row Hrow. exists (flatten_labels row). split.
  { change (List.map flatten_labels ?l) with (flatten_labels <$> l).
    by rewrite list_lookup_fmap, Hrow. }
  split; [reflexivity|]. apply flatten_labels_members.
Qed.

(** Witness of X10: a fetch returning one row with two join rows, one of
    which has lost its label. *)
Lemma fetchTodos_replaces_or_keeps_witness :
  let table :=
    [TodoRow.mk (Todo.mk 9 (js "Water plants") None None false (js "u-bob")
                   (Some bob) None)
       (Some [TodoLabel.mk (js "l-gone") None;
              TodoLabel.mk (js "l-home") (Some home)])] in
  let s' := snd (fst (fst (run (scripted table) (fetchTodos sample_state) []))) in
  error (fst (scripted table SelectTodos [])) = None /\
  List.map Todo.id (todos s') = [9] /\
  List.map Todo.labels (todos s') = [Some [home]].
Proof.
  intros table s'.
  destruct (fetchTodos_replaces_or_keeps (scripted table) sample_state [])
    as (_ & _ & H).
  destruct (H eq_refl) as (_ & _ & _ & _ & Hids & _).
  split; [reflexivity|]. split; [exact Hids|reflexivity].
Defined.

(** ** fetchUsers, fetchLabels, editTodo *)

(** X11: [fetchUsers] and [fetchLabels] each issue their one query.  On an
    error the handler logs it and keeps the whole state, so the collection
    stays as it was; otherwise it replaces its own collection by the
    returned rows in the store's order (by the empty list when no rows are
    returned) and touches nothing else: a failed or successful user fetch
    never changes the labels or the todos, and conversely. *)
Theorem fetchUsers_fetchLabels_replace_or_keep
    {R : Type} (qrespond : forall q, R -> answer q * R) (s : State) (σ : R) :
  (let r := fst (qrespond SelectProfiles σ) in
   let out := qrun qrespond (fetchUsers s) σ in
   let s' := fst (fst out) in
   s' = update_users (fun _ => users s') s /\
   (forall e, error r = Some e ->
      s' = s /\
      snd (fst out) = [QEvRemote SelectProfiles;
                       QEvConsoleError (js "User fetch error:") e]) /\
   (error r = None ->
      users s' = default [] (data r) /\ snd (fst out) = [QEvRemote SelectProfiles])) /\
  (let r := fst (qrespond SelectLabels σ) in
   let out := qrun qrespond (fetchLabels s) σ in
   let s' := fst (fst out) in
   s' = update_labels (fun _ => labels s') s /\
   (forall e, error r = Some e ->
      s' = s /\
      snd (fst out) = [QEvRemote SelectLabels;
                       QEvConsoleError (js "Labels fetch error:") e]) /\
   (error r = None ->
      labels s' = default [] (data r) /\ snd (fst out) = [QEvRemote SelectLabels])).
Proof.
  split; cbv zeta; simpl.
  - destruct (qrespond SelectProfiles σ) as [r σ1]. simpl.
    destruct (error r) as [e|]; simpl.
    + split; [by destruct s|]. split; [|discriminate]. by intros e' [= <-].
    + split; [reflexivity|]. split; [discriminate|]. by intros _.
  - destruct (qrespond SelectLabels σ) as [r σ1]. simpl.
    destruct (error r) as [e|]; simpl.
    + split; [by destruct s|]. split; [|discriminate]. by intros e' [= <-].
    + split; [reflexivity|]. split; [discriminate|]. by intros _.
Qed.

(** Witness of X11: the user fetch fails and the label fetch returns one
    label. *)
Lemma fetchUsers_fetchLabels_replace_or_keep_witness :
  fst (fst (qrun (qscripted [] [urgent] []) (fetchUsers sample_state) [true]))
    = sample_state /\
  labels (fst (fst (qrun (qscripted [] [urgent] []) (fetchLabels sample_state) [])))
    = [urgent].
Proof.
  destruct (fetchUsers_fetchLabels_replace_or_keep (qscripted [] [urgent] [])
              sample_state [true]) as [(_ & Hu & _) _].
  destruct (fetchUsers_fetchLabels_replace_or_keep (qscripted [] [urgent] [])
              sample_state []) as [_ (_ & _ & Hl)].
  split; [exact (proj1 (Hu store_error eq_refl))|exact (proj1 (Hl eq_refl))].
Defined.

Lemma or_empty (d : option jsstring) :
  match d with
  | Some d => if str_truthy d then d else []
  | None => []
  end = default [] d.
Proof. by destruct d as [[|c d]|]. Qed.

Lemma run_editTodo {R : Type} (qrespond : forall q, R -> answer q * R)
    (todo : Todo.t) (s : State) (σ : R) :
  qrun qrespond (editTodo todo s) σ =
    let r := fst (qrespond (SelectTodoLabels (Todo.id todo)) σ) in
    let s1 := set_form_fields (Todo.title todo) (default [] (Todo.description todo))
                (default [] (Todo.due_date todo)) (Todo.assignee_id todo) s in
    (set_editingId (Some (Todo.id todo))
       match error r, data r with
       | None, Some ids => update_selectedLabelIds (fun _ => ids) s1
       | _, _ => s1
       end,
     [QEvRemote (SelectTodoLabels (Todo.id todo))],
     snd (qrespond (SelectTodoLabels (Todo.id todo)) σ)).
Proof.
  unfold editTodo. simpl. rewrite !or_empty.
  replace (if str_truthy (Todo.assignee_id todo) then Todo.assignee_id todo else [])
    with (Todo.assignee_id todo) by (by destruct (Todo.assignee_id todo)).
  by destruct (qrespond (SelectTodoLabels (Todo.id todo)) σ) as [r σ1].
Qed.

(** X12: [editTodo] issues one query, for the join rows of the todo, and
    logs or alerts nothing whatever the answer.  It copies the todo's title,
    description (empty when null), due date (empty when null) and assignee
    into the form and sets the edit target to the todo's identifier.  When
    the query succeeds with rows the selected labels become the returned
    label identifiers; when it fails or returns no rows the selected labels
    stay what they were before the click.  Todos, users, labels, the new
    label input and the filters are unchanged. *)
Theorem editTodo_seeds_form
    {R : Type} (qrespond : forall q, R -> answer q * R)
    (todo : Todo.t) (s : State) (σ : R) :
  let r := fst (qrespond (SelectTodoLabels (Todo.id todo)) σ) in
  let out := qrun qrespond (editTodo todo s) σ in
  let s' := fst (fst out) in
  snd (fst out) = [QEvRemote (SelectTodoLabels (Todo.id todo))] /\
  s' = fill_form (Todo.title todo) (default [] (Todo.description todo))
         (default [] (Todo.due_date todo)) (Todo.assignee_id todo)
         (selectedLabelIds s') (Some (Todo.id todo)) s /\
  (forall ids, error r = None -> data r = Some ids -> selectedLabelIds s' = ids) /\
  (error r <> None \/ data r = None -> selectedLabelIds s' = selectedLabelIds s).
Proof.
  intros r out s'. subst out s'. rewrite run_editTodo. cbv zeta. fold r.
  cbn [fst snd]. split; [reflexivity|].
  destruct (error r) as [e|], (data r) as [ids|]; simpl.
  - split; [reflexivity|]. split; [discriminate|]. done.
  - split; [reflexivity|]. split; [discriminate|]. done.
  - split; [reflexivity|]. split; [by intros ids' _ [= <-]|].
    intros [H|H]; congruence.
  - split; [reflexivity|]. split; [discriminate|]. done.
Qed.

(** Witness of X12: the edit button of "Buy milk" while a stale selection
    sits in the form and the join query fails: the stale selection stays
    and edit mode is entered. *)
Lemma editTodo_seeds_form_witness :
  let s := fill_form [] [] [] [] [js "l-home"] None sample_state in
  let s' := fst (fst (qrun (qscripted [] [] [js "l-urgent"]) (editTodo milk_todo s)
                        [true])) in
  error (fst (qscripted [] [] [js "l-urgent"] (SelectTodoLabels 5) [true])) <> None /\
  selectedLabelIds s' = [js "l-home"] /\
  editingId s' = Some 5 /\ title s' = js "Buy milk".
Proof.
  intros s s'.
  assert (Hfail : error (fst (qscripted [] [] [js "l-urgent"] (SelectTodoLabels 5)
                                [true])) <> None) by discriminate.
  split; [exact Hfail|].
  destruct (editTodo_seeds_form (qscripted [] [] [js "l-urgent"]) milk_todo s [true])
    as (_ & _ & _ & H).
  split; [exact (H (or_introl Hfail))|]. split; reflexivity.
Defined.

(** X13: press the edit button of a todo whose identifier is not 0, whose
    title is not blank and whose assignee is set, let the join query return
    label identifiers (at least one), and save without touching the form,
    against a store that accepts the update.  The save writes back the
    todo's own title, description, due date and assignee, deletes the join
    rows of the todo and re-inserts exactly the label identifiers that were
    fetched, in the fetched order, then re-fetches the list. *)
Theorem editTodo_then_saveTodo_rewrites_same
    {R : Type} (qrespond : forall q, R -> answer q * R)
    (respond : forall c, R -> response c * R)
    (todo : Todo.t) (s : State) (σ : R) (ids : list jsstring) :
  Todo.id todo <> 0 -> trim (Todo.title todo) <> [] -> Todo.assignee_id todo <> [] ->
  ids <> [] ->
  let r := fst (qrespond (SelectTodoLabels (Todo.id todo)) σ) in
  error r = None -> data r = Some ids ->
  let edited := qrun qrespond (editTodo todo s) σ in
  let s1 := fst (fst edited) in
  let c1 := UpdateTodo (Todo.id todo) (Todo.title todo)
              (default [] (Todo.description todo)) (default [] (Todo.due_date todo))
              (Todo.assignee_id todo) in
  error (fst (respond c1 (snd edited))) = None ->
  List.filter is_remote (snd (fst (run respond (saveTodo s1 s1) (snd edited)))) =
    [EvRemote c1;
     EvRemote (DeleteTodoLabels (Todo.id todo));
     EvRemote (InsertTodoLabels (List.map (fun l => (Todo.id todo, l)) ids));
     EvRemote SelectTodos].
Proof.
  intros Hid Ht Ha Hids r Herr Hdata edited s1 c1 Hok.
  subst s1 edited. rewrite run_editTodo in *. cbv zeta in *. fold r in Hok |- *.
  rewrite Herr, Hdata in *. cbn [fst snd] in *.
  set (s1 := set_editingId _ _).
  assert (Hv : valid_form s1) by (repeat split; assumption).
  assert (He : editing s1 = Some (Todo.id todo)).
  { unfold editing. simpl. apply Z.eqb_neq in Hid. by rewrite Hid. }
  rewrite (run_saveTodo_update_accepted respond s1 s1 _ (Todo.id todo) Hv He Hok).
  cbv zeta. cbn [fst snd].
  repeat (simpl; rewrite ?List.filter_app, ?filter_remote_log). reflexivity.
Qed.

(** Witness of X13: edit "Buy milk" and save at once. *)
Lemma editTodo_then_saveTodo_rewrites_same_witness :
  let ids := [js "l-urgent"; js "l-home"] in
  let edited := qrun (qscripted [] [] ids) (editTodo milk_todo sample_state) [] in
  List.filter is_remote
    (snd (fst (run (scripted []) (saveTodo (fst (fst edited)) (fst (fst edited)))
                 (snd edited)))) =
    [EvRemote (UpdateTodo 5 (js "Buy milk") [] [] (js "u-alice"));
     EvRemote (DeleteTodoLabels 5);
     EvRemote (InsertTodoLabels [(5, js "l-urgent"); (5, js "l-home")]);
     EvRemote SelectTodos].
Proof.
  intros ids edited.
  apply (editTodo_then_saveTodo_rewrites_same (qscripted [] [] ids) (scripted [])
           milk_todo sample_state [] ids);
    try discriminate; reflexivity.
Defined.

Lemma not_elem_of_log_remote (tag : jsstring) (e : option PgError) (c : call) :
  EvRemote c ∉ log_of tag e.
Proof. destruct e; simpl; intros H; absurd_elem_of H. Qed.

(** X14: the edit target is tested with [if (editingId)], and 0 is falsy.
    For a todo whose identifier is 0 (title not blank, assignee set, at
    least one label fetched), pressing edit and then saving does not update
    it: the first remote call is an insert of a new todo with the same
    fields, and the save issues no update of a todo row and no delete of
    join rows. *)
Theorem editTodo_zero_then_saveTodo_inserts
    {R : Type} (qrespond : forall q, R -> answer q * R)
    (respond : forall c, R -> response c * R)
    (todo : Todo.t) (s : State) (σ : R) (ids : list jsstring) :
  Todo.id todo = 0 -> trim (Todo.title todo) <> [] -> Todo.assignee_id todo <> [] ->
  ids <> [] ->
  let r := fst (qrespond (SelectTodoLabels (Todo.id todo)) σ) in
  error r = None -> data r = Some ids ->
  let edited := qrun qrespond (editTodo todo s) σ in
  let s1 := fst (fst edited) in
  let trace := snd (fst (run respond (saveTodo s1 s1) (snd edited))) in
  editingId s1 = Some 0 /\
  (exists rest,
     trace = EvRemote (InsertTodo (Todo.title todo) (default [] (Todo.description todo))
                         (default [] (Todo.due_date todo)) (Todo.assignee_id todo))
             :: rest) /\
  (forall eid t d due a, EvRemote (UpdateTodo eid t d due a) ∉ trace) /\
  (forall eid, EvRemote (DeleteTodoLabels eid) ∉ trace).
Proof.
  intros Hid Ht Ha Hids r Herr Hdata edited s1 trace.
  subst trace s1 edited. rewrite run_editTodo. cbv zeta. fold r.
  rewrite Herr, Hdata. cbn [fst snd].
  set (s1 := set_editingId _ _).
  assert (Hv : valid_form s1) by (repeat split; assumption).
  assert (He : editing s1 = None).
  { unfold editing. simpl. by rewrite Hid. }
  split; [simpl; by rewrite Hid|].
  rewrite (run_saveTodo_create respond s1 s1 _ Hv He). cbv zeta.
  change (title s1) with (Todo.title todo).
  change (description s1) with (default [] (Todo.description todo)).
  change (dueDate s1) with (default [] (Todo.due_date todo)).
  change (assigneeId s1) with (Todo.assignee_id todo).
  set (c1 := InsertTodo _ _ _ _).
  set (σ1 := snd (qrespond (SelectTodoLabels (Todo.id todo)) σ)).
  destruct (error (fst (respond c1 σ1))) as [e|]; cbn [fst snd].
  { split; [by eexists|]. split; intros; intros Hin; absurd_elem_of Hin. }
  destruct (data (fst (respond c1 σ1))) as [[|t0 rest]|]; cbn [fst snd].
  - split; [by eexists|].
    split; intros; intros Hin;
      (apply elem_of_cons in Hin as [Hin|Hin]; [discriminate|]);
      (apply elem_of_cons in Hin as [Hin|Hin]; [discriminate|]);
      by apply not_elem_of_log_remote in Hin.
  - split; [by eexists|].
    split; intros; intros Hin;
      (apply elem_of_cons in Hin as [Hin|Hin]; [discriminate|]);
      (apply elem_of_cons in Hin as [Hin|Hin]; [discriminate|]);
      (apply elem_of_app in Hin as [Hin|Hin];
         [by apply not_elem_of_log_remote in Hin|]);
      (apply elem_of_cons in Hin as [Hin|Hin]; [discriminate|]);
      by apply not_elem_of_log_remote in Hin.
  - split; [by eexists|].
    split; intros; intros Hin;
      (apply elem_of_cons in Hin as [Hin|Hin]; [discriminate|]);
      (apply elem_of_cons in Hin as [Hin|Hin]; [discriminate|]);
      by apply not_elem_of_log_remote in Hin.
Qed.

(** Witness of X14: a todo stored under identifier 0. *)
Lemma editTodo_zero_then_saveTodo_inserts_witness :
  let zero := Todo.mk 0 (js "First") None None false (js "u-alice") None None in
  let edited := qrun (qscripted [] [] [js "l-home"]) (editTodo zero sample_state) [] in
  let s1 := fst (fst edited) in
  editingId s1 = Some 0 /\
  List.filter is_remote (snd (fst (run (scripted []) (saveTodo s1 s1) (snd edited)))) =
    [EvRemote (InsertTodo (js "First") [] [] (js "u-alice"));
     EvRemote (InsertTodoLabels [(100, js "l-home")]);
     EvRemote SelectTodos].
Proof.
  intros zero edited s1.
  destruct (editTodo_zero_then_saveTodo_inserts (qscripted [] [] [js "l-home"])
              (scripted []) zero sample_state [] [js "l-home"])
    as (He & _); try discriminate; try reflexivity.
  split; [exact He|reflexivity].
Defined.

(** ** The label picker: handleAddNewLabel, handleLabelToggle *)

Lemma run_createNewLabel_null {I : Intl} {R : Type}
    (respond : forall c, R -> response c * R) (cl s : State) (n : jsstring) (σ : R) :
  fst (fst (fst (run respond (createNewLabel cl n s) σ))) = None ->
  snd (fst (fst (run respond (createNewLabel cl n s) σ))) = s.
Proof.
  rewrite run_createNewLabel.
  destruct (str_truthy (trim n)); [|done].
  destruct (List.find _ (labels cl)); [done|].
  by destruct (fst (respond (InsertLabel (trim n)) σ)).
Qed.

(** X15: [handleAddNewLabel] has the remote calls, logs and alerts of
    [createNewLabel] on the text of the new-label input, and no others.
    When that returns a non-empty identifier, the identifier is appended to
    the selected labels, whether or not it is already selected, and the
    input is cleared; the label cache is the one [createNewLabel] left.
    When it returns none (blank input, or the store rejected the insert)
    the whole state is unchanged, the typed text included. *)
Theorem handleAddNewLabel_appends_identifier
    {I : Intl} {R : Type} (respond : forall c, R -> response c * R)
    (cl s : State) (σ : R) :
  let created := run respond (createNewLabel cl (newLabelName cl) s) σ in
  let out := run respond (handleAddNewLabel cl s) σ in
  let s' := snd (fst (fst out)) in
  snd (fst out) = snd (fst created) /\
  snd out = snd created /\
  (forall i, fst (fst (fst created)) = Some i -> i <> [] ->
     s' = set_newLabelName []
            (update_selectedLabelIds (fun prev => prev ++ [i])
               (snd (fst (fst created)))) /\
     selectedLabelIds s' = selectedLabelIds s ++ [i] /\
     newLabelName s' = []) /\
  (fst (fst (fst created)) = None -> s' = s).
Proof.
  intros created out s'. subst out s'.
  pose proof (run_createNewLabel_null respond cl s (newLabelName cl) σ) as Hnull.
  assert (Hsel : selectedLabelIds (snd (fst (fst created))) = selectedLabelIds s).
  { subst created. rewrite run_createNewLabel.
    destruct (str_truthy _); [|done].
    destruct (List.find _ _); [done|].
    by destruct (fst (respond _ σ)). }
  unfold handleAddNewLabel. rewrite run_bind. fold created in Hnull |- *.
  destruct created as [[[r s1] tr1] σ1]. cbn [fst snd] in *.
  destruct r as [i|].
  - destruct (str_truthy i) eqn:Hi; simpl; rewrite app_nil_r.
    + split; [done|]. split; [done|]. split; [|discriminate].
      intros i' [= <-] _. split; [reflexivity|]. split; [|reflexivity].
      simpl. by rewrite Hsel.
    + split; [done|]. split; [done|]. split; [|discriminate].
      intros i' [= <-] Hne. apply str_truthy_false in Hi. contradiction.
  - simpl. rewrite app_nil_r. split; [done|]. split; [done|].
    split; [discriminate|]. intros _. by apply Hnull.
Qed.

(** Witness of X15: "URGENT" is typed while the cached label "urgent" is
    already selected: its identifier is selected a second time, with no
    remote call. *)
Lemma handleAddNewLabel_appends_identifier_witness :
  let cl := set_newLabelName (js "URGENT")
              (fill_form [] [] [] [] [js "l-urgent"] None sample_state) in
  let out := run (scripted []) (handleAddNewLabel (I := ascii_intl) cl cl) [] in
  snd (fst out) = [] /\
  selectedLabelIds (snd (fst (fst out))) = [js "l-urgent"; js "l-urgent"] /\
  newLabelName (snd (fst (fst out))) = [].
Proof.
  intros cl out.
  destruct (handleAddNewLabel_appends_identifier (I := ascii_intl) (scripted []) cl cl [])
    as (Htr & _ & H & _).
  destruct (H (js "l-urgent") eq_refl) as (_ & Hsel & Hname); [discriminate|].
  split; [reflexivity|]. split; [exact Hsel|exact Hname].
Defined.

Lemma toggle_id_present (labelId : jsstring) (prev : list jsstring) :
  labelId ∈ prev ->
  toggle_id labelId prev = filter (fun id => id <> labelId) prev.
Proof.
  intros Hin. unfold toggle_id. rewrite bool_decide_eq_true_2 by done.
  apply List_filter_stdpp. intros x.
  by rewrite negb_true_iff, bool_decide_eq_false.
Qed.

Lemma toggle_id_absent (labelId : jsstring) (prev : list jsstring) :
  labelId ∉ prev -> toggle_id labelId prev = prev ++ [labelId].
Proof. intros Hnot. unfold toggle_id. by rewrite bool_decide_eq_false_2. Qed.

(** X16: the updater of [handleLabelToggle] and [handleFilterLabelToggle]
    flips the membership of the clicked identifier and of no other: a
    selected identifier is removed (every copy of it), an unselected one is
    appended at the end.  A selection without duplicates stays without
    duplicates.  Clicking twice an identifier that was not selected gives
    back the same list; clicking twice one that was selected gives back the
    same identifiers, with the clicked one moved to the end. *)
Theorem toggle_id_flips_membership (labelId : jsstring) (prev : list jsstring) :
  (labelId ∈ toggle_id labelId prev <-> labelId ∉ prev) /\
  (forall x, x <> labelId -> (x ∈ toggle_id labelId prev <-> x ∈ prev)) /\
  (NoDup prev -> NoDup (toggle_id labelId prev)) /\
  (labelId ∉ prev -> toggle_id labelId (toggle_id labelId prev) = prev) /\
  (labelId ∈ prev ->
     toggle_id labelId (toggle_id labelId prev)
       = filter (fun id => id <> labelId) prev ++ [labelId]).
Proof.
  destruct (decide (labelId ∈ prev)) as [Hin|Hnot].
  - rewrite (toggle_id_present _ _ Hin).
    assert (Hgone : labelId ∉ filter (fun id => id <> labelId) prev).
    { rewrite list_elem_of_filter. tauto. }
    split; [tauto|]. split.
    { intros x Hx. rewrite list_elem_of_filter. tauto. }
    split; [apply NoDup_filter|]. split; [done|].
    intros _. by apply toggle_id_absent.
  - rewrite (toggle_id_absent _ _ Hnot).
    assert (Hnow : labelId ∈ prev ++ [labelId]).
    { apply elem_of_app. right. apply list_elem_of_here. }
    split.
    { split; [done|]. by intros _. }
    split.
    { intros x Hx. rewrite elem_of_app, list_elem_of_singleton. tauto. }
    split.
    { intros Hnd. apply NoDup_app. split; [done|]. split.
      - intros x Hx Hx'. apply list_elem_of_singleton in Hx'. congruence.
      - apply NoDup_singleton. }
    split; [|done]. intros _.
    rewrite (toggle_id_present _ _ Hnow), filter_app.
    rewrite filter_cons_False, filter_nil, app_nil_r by tauto.
    induction prev as [|x prev IH]; [done|].
    apply not_elem_of_cons in Hnot as [Hne Hnot].
    rewrite filter_cons_True by done. f_equal. apply IH; [done|].
    apply elem_of_app. right. apply list_elem_of_here.
Qed.

(** Witness of X16: two clicks on an unselected and on a selected label. *)
Lemma toggle_id_flips_membership_witness :
  let sel := [js "l-urgent"; js "l-home"] in
  toggle_id (js "l-new") (toggle_id (js "l-new") sel) = sel /\
  toggle_id (js "l-urgent") (toggle_id (js "l-urgent") sel)
    = [js "l-home"; js "l-urgent"].
Proof.
  intros sel.
  destruct (toggle_id_flips_membership (js "l-new") sel) as (_ & _ & _ & Hback & _).
  destruct (toggle_id_flips_membership (js "l-urgent") sel) as (_ & _ & _ & _ & Hmove).
  split.
  - apply Hback. intros Hin. absurd_elem_of Hin.
  - rewrite Hmove; [reflexivity|]. apply list_elem_of_here.
Defined.

(** ** The filter controls *)

Lemma filteredTodos_as_filter (s : State) :
  filteredTodos s
    = filter (matches_filters (filterUserId s) (filterLabelIds s)) (todos s).
Proof.
  unfold filteredTodos. apply List_filter_stdpp. intros t. apply filteredTodos_test.
Qed.

Lemma filter_mono_sublist {A : Type} (P Q : A -> Prop)
    `{!forall x, Decision (P x)} `{!forall x, Decision (Q x)} (l : list A) :
  (forall x, P x -> Q x) -> filter P l `sublist_of` filter Q l.
Proof.
  intros HPQ. induction l as [|x l IH]; [constructor|].
  rewrite !filter_cons. destruct (decide (P x)) as [HP|HP].
  - rewrite decide_True by auto. by constructor.
  - destruct (decide (Q x)); [by constructor|done].
Qed.

(** X17: [clearAllFilters] makes no remote call and resets both filters,
    after which the filtered view is the whole todo list, in order. *)
Theorem clearAllFilters_shows_all
    {R : Type} (respond : forall c, R -> response c * R) (s : State) (σ : R) :
  let out := run respond (clearAllFilters s) σ in
  let s' := snd (fst (fst out)) in
  snd (fst out) = [] /\ snd out = σ /\
  filterUserId s' = [] /\ filterLabelIds s' = [] /\
  todos s' = todos s /\
  filteredTodos s' = todos s.
Proof.
  intros out s'. subst out s'. simpl.
  repeat split. unfold filteredTodos. simpl.
  apply List_filter_all. intros t _. reflexivity.
Qed.

(** X18: a click on a label in the filter picker.  When the label was not
    a filter, the new view is the old view restricted to the todos that
    carry the label, so it can only shrink.  When the label was a filter,
    the old view is a sub-sequence of the new one, so it can only grow.  In
    both cases the view is a sub-sequence of the todo list. *)
Theorem handleFilterLabelToggle_narrows_or_widens
    {R : Type} (respond : forall c, R -> response c * R)
    (labelId : jsstring) (s : State) (σ : R) :
  let out := run respond (handleFilterLabelToggle labelId s) σ in
  let s' := snd (fst (fst out)) in
  snd (fst out) = [] /\
  s' = update_filterLabelIds (fun _ => filterLabelIds s') s /\
  (labelId ∉ filterLabelIds s ->
     filteredTodos s' = filter (fun t => labelId ∈ label_ids t) (filteredTodos s)) /\
  (labelId ∈ filterLabelIds s -> filteredTodos s `sublist_of` filteredTodos s') /\
  filteredTodos s' `sublist_of` todos s.
Proof.
  intros out s'. subst out s'. cbn [run handleFilterLabelToggle fst snd].
  split; [reflexivity|]. split; [reflexivity|].
  rewrite !filteredTodos_as_filter.
  change (todos (update_filterLabelIds ?f s)) with (todos s).
  change (filterUserId (update_filterLabelIds ?f s)) with (filterUserId s).
  change (filterLabelIds (update_filterLabelIds ?f s)) with (f (filterLabelIds s)).
  cbv beta.
  split; [|split].
  - intros Hnot. rewrite (toggle_id_absent _ _ Hnot), list_filter_filter.
    apply list_filter_iff. intros t. unfold matches_filters.
    rewrite list_to_set_app_L, union_subseteq. simpl.
    rewrite (right_id_L ∅ (∪)), singleton_subseteq_l. tauto.
  - intros Hin. rewrite (toggle_id_present _ _ Hin).
    apply filter_mono_sublist. intros t [Hu Hl]. split; [done|].
    intros x Hx. apply Hl. apply elem_of_list_to_set in Hx.
    apply list_elem_of_filter in Hx as [_ Hx]. by apply elem_of_list_to_set.
  - apply sublist_filter.
Qed.

(** Witness of X18: with no filter, a click on "urgent" keeps the one todo
    that carries it. *)
Lemma handleFilterLabelToggle_narrows_or_widens_witness :
  let out := run (scripted []) (handleFilterLabelToggle (js "l-urgent") sample_state) [] in
  (js "l-urgent" ∉ filterLabelIds sample_state) /\
  filteredTodos sample_state = [rent_todo; milk_todo] /\
  filteredTodos (snd (fst (fst out))) = [milk_todo] /\
  filteredTodos (snd (fst (fst out)))
    = filter (fun t => js "l-urgent" ∈ label_ids t) (filteredTodos sample_state).
Proof.
  intros out.
  assert (Hnot : js "l-urgent" ∉ filterLabelIds sample_state).
  { intros Hin. by apply elem_of_nil in Hin. }
  split; [exact Hnot|]. split; [reflexivity|]. split; [reflexivity|].
  destruct (handleFilterLabelToggle_narrows_or_widens (scripted []) (js "l-urgent")
              sample_state []) as (_ & _ & H & _).
  exact (H Hnot).
Defined.

(** X19: with no label filter selected, the filtered view coincides with
    the view of the earlier revision of the component, which filters on the
    assignee alone: the whole list when the assignee filter is unset, the
    todos of that assignee otherwise. *)
Theorem filteredTodos_without_labels_is_assignee_filter (s : State) :
  filterLabelIds s = [] ->
  filteredTodos s = filteredTodos_by_assignee s /\
  (filterUserId s = [] -> filteredTodos s = todos s).
Proof.
  intros Hl. unfold filteredTodos, filteredTodos_by_assignee. rewrite Hl. simpl.
  destruct (str_truthy (filterUserId s)) eqn:Hu; simpl.
  - split.
    + apply List.filter_ext. intros t. by rewrite andb_true_r.
    + intros He. rewrite He in Hu. discriminate.
  - assert (Hall : List.filter (fun _ : Todo.t => true && true) (todos s) = todos s).
    { apply List_filter_all. by intros. }
    by split.
Qed.

(** Witness of X19: the sample list filtered on Bob. *)
Lemma filteredTodos_without_labels_is_assignee_filter_witness :
  let s := set_filters (js "u-bob") [] sample_state in
  filterLabelIds s = [] /\
  filteredTodos s = filteredTodos_by_assignee s /\
  filteredTodos_by_assignee s = [rent_todo].
Proof.
  intros s.
  destruct (filteredTodos_without_labels_is_assignee_filter s eq_refl) as [H _].
  split; [reflexivity|]. split; [exact H|reflexivity].
Defined.

(** ** createNewLabel: a rejected insert, and the cache invariant *)

Lemma find_matches_name_absent {I : Intl} (n : jsstring) (ls : list Label.t) :
  (forall l, l ∈ ls -> ~ matches_name n l) ->
  List.find
    (fun label => bool_decide (toLowerCase (Label.name label) = toLowerCase (trim n)))
    ls = None.
Proof.
  intros Hnone. destruct (List.find _ ls) as [l|] eqn:Hfind; [|done].
  apply find_matches_name_Some in Hfind as [Hl Hm]. by destruct (Hnone l Hl).
Qed.

(** X20: for a name that is not blank and has no case-insensitive match in
    the cache, when the store rejects the label insert, [createNewLabel]
    returns no identifier, logs the error, alerts "Failed to create new
    label: " followed by the store's message, and leaves the state, the
    label cache included, as it was; the insert is its only remote call. *)
Theorem createNewLabel_rejected_insert
    {I : Intl} {R : Type} (respond : forall c, R -> response c * R)
    (cl s : State) (n : jsstring) (σ : R) (e : PgError) :
  trim n <> [] ->
  (forall l, l ∈ labels cl -> ~ matches_name n l) ->
  fst (respond (InsertLabel (trim n)) σ) = SingleError e ->
  run respond (createNewLabel cl n s) σ =
    ((None, s),
     [EvRemote (InsertLabel (trim n));
      EvConsoleError (js "Error creating label:") e;
      EvAlert (js "Failed to create new label: " ++ message e)],
     snd (respond (InsertLabel (trim n)) σ)).
Proof.
  intros Hn Hnone Hrej. rewrite run_createNewLabel.
  apply str_truthy_true in Hn. rewrite Hn.
  rewrite (find_matches_name_absent n (labels cl) Hnone). by rewrite Hrej.
Qed.

(** Witness of X20: "Work" while the store is down. *)
Lemma createNewLabel_rejected_insert_witness :
  run (scripted []) (createNewLabel (I := ascii_intl) sample_state (js "Work")
                       sample_state) [true] =
    ((None, sample_state),
     [EvRemote (InsertLabel (js "Work"));
      EvConsoleError (js "Error creating label:") store_error;
      EvAlert (js "Failed to create new label: connection lost")],
     []).
Proof.
  apply (createNewLabel_rejected_insert (I := ascii_intl) (scripted []) sample_state
           sample_state (js "Work") [true] store_error).
  - discriminate.
  - intros l Hl Hm. unfold matches_name in Hm.
    repeat (apply elem_of_cons in Hl as [->|Hl]; [discriminate Hm|]).
    by apply elem_of_nil in Hl.
  - reflexivity.
Defined.

(** X21: the cache invariant.  If the names of the cached labels are
    pairwise different once lower-cased, and the store, when it accepts an
    insert, returns a row whose name lower-cases like the inserted name,
    then after [createNewLabel], whatever the name and whatever the store
    answers, the names of the cache are still pairwise different once
    lower-cased. *)
Theorem createNewLabel_keeps_names_distinct
    {I : Intl} {R : Type} (respond : forall c, R -> response c * R)
    (s : State) (n : jsstring) (σ : R) :
  distinct_names (labels s) ->
  (forall d, fst (respond (InsertLabel (trim n)) σ) = SingleRow d ->
     toLowerCase (Label.name d) = toLowerCase (trim n)) ->
  distinct_names
    (labels (snd (fst (fst (dispatch respond (fun cl => createNewLabel cl n) s σ))))).
Proof.
  intros Hnd Hrow. unfold dispatch. rewrite run_createNewLabel.
  destruct (str_truthy (trim n)); [|done].
  destruct (List.find _ (labels s)) as [l|] eqn:Hfind; [done|].
  destruct (fst (respond (InsertLabel (trim n)) σ)) as [d|e] eqn:Hr; [|done].
  cbn [fst snd]. unfold distinct_names in *.
  change (labels (update_labels ?f s)) with (f (labels s)). cbv beta.
  change (List.map ?f ?l) with (f <$> l) in *.
  rewrite (sort_perm _ (labels s ++ [d])), fmap_app. simpl.
  apply NoDup_app. split; [done|]. split; [|apply NoDup_singleton].
  intros x Hx Hx'. apply list_elem_of_singleton in Hx'. subst x.
  apply list_elem_of_fmap in Hx as (l & Hl & Hin).
  apply (find_matches_name_None n (labels s) Hfind l Hin).
  unfold matches_name. rewrite <- Hl. by apply Hrow.
Qed.

(** Witness of X21: "Work" joins the cache [home; urgent]. *)
Lemma createNewLabel_keeps_names_distinct_witness :
  distinct_names (I := ascii_intl) (labels sample_state) /\
  distinct_names (I := ascii_intl)
    (labels (snd (fst (fst (dispatch (scripted [])
                              (fun cl => createNewLabel (I := ascii_intl) cl (js "Work"))
                              sample_state []))))).
Proof.
  assert (Hnd : distinct_names (I := ascii_intl) (labels sample_state)).
  { apply (bool_decide_unpack _). vm_compute. exact I. }
  split; [exact Hnd|].
  apply (createNewLabel_keeps_names_distinct (I := ascii_intl) (scripted [])
           sample_state (js "Work") [] Hnd).
  intros d [= <-]. reflexivity.
Defined.

(** ** The edit form and the assignee picker; the order of the checks *)

(** X22: after [editTodo], whatever the join query answered, every user
    of the user list whose identifier is the todo's assignee is among the
    available assignees: the edit form always offers the assignee the todo
    already has, even when that user is assigned to other todos too. *)
Theorem editTodo_offers_current_assignee
    {R : Type} (qrespond : forall q, R -> answer q * R)
    (todo : Todo.t) (s : State) (σ : R) (u : Profile.t) :
  u ∈ users s -> Profile.id u = Todo.assignee_id todo ->
  u ∈ availableUsers (fst (fst (qrun qrespond (editTodo todo s) σ))).
Proof.
  intros Hu Hid. rewrite run_editTodo. cbv zeta. cbn [fst snd].
  set (r := fst (qrespond (SelectTodoLabels (Todo.id todo)) σ)).
  unfold availableUsers.
  apply list_elem_of_In, filter_In. split.
  - apply list_elem_of_In.
    by destruct (error r) as [e|], (data r) as [ids|].
  - apply orb_true_iff. right. apply bool_decide_eq_true.
    by destruct (error r) as [e|], (data r) as [ids|].
Qed.

(** Witness of X22: a second todo of Alice is edited; Alice is offered
    while also holding todo 5. *)
Lemma editTodo_offers_current_assignee_witness :
  let other := Todo.mk 8 (js "Book flights") None None false (js "u-alice")
                 (Some alice) None in
  let s := update_todos (fun prev => other :: prev) sample_state in
  let s' := fst (fst (qrun (qscripted [] [] []) (editTodo other s) [true])) in
  Profile.id alice ∈ assignedIds s' /\ alice ∈ availableUsers s'.
Proof.
  intros other s s'. split.
  - apply list_elem_of_further, list_elem_of_here.
  - apply (editTodo_offers_current_assignee (qscripted [] [] []) other s [true] alice).
    + apply list_elem_of_here.
    + reflexivity.
Defined.

(** X23: the checks of [saveTodo] run in a fixed order and only the first
    failing one is reported: a blank title gives "Title is required"
    whatever the rest of the form; otherwise a missing assignee gives
    "Assignee is required" whatever the labels; otherwise an empty label
    selection gives "At least one label is required".  When none fails, the
    first effect is a remote write on the todo row, never an alert. *)
Theorem saveTodo_reports_first_failed_check (cl s : State) :
  (trim (title cl) = [] ->
     saveTodo cl s = Alert (js "Title is required") (Ret (tt, s))) /\
  (trim (title cl) <> [] -> assigneeId cl = [] ->
     saveTodo cl s = Alert (js "Assignee is required") (Ret (tt, s))) /\
  (trim (title cl) <> [] -> assigneeId cl <> [] -> selectedLabelIds cl = [] ->
     saveTodo cl s = Alert (js "At least one label is required") (Ret (tt, s))) /\
  (valid_form cl ->
     match saveTodo cl s with
     | Await c _ =>
         c = match editing cl with
             | Some eid =>
                 UpdateTodo eid (title cl) (description cl) (dueDate cl) (assigneeId cl)
             | None =>
                 InsertTodo (title cl) (description cl) (dueDate cl) (assigneeId cl)
             end
     | _ => False
     end).
Proof.
  split; [|split; [|split]].
  - intros Ht. unfold saveTodo. by rewrite Ht.
  - intros Ht Ha. apply str_truthy_true in Ht. unfold saveTodo. by rewrite Ht, Ha.
  - intros Ht Ha Hl. apply str_truthy_true in Ht, Ha.
    unfold saveTodo. by rewrite Ht, Ha, Hl.
  - intros Hv. destruct (valid_form_tests cl Hv) as (Ht & Ha & Hl & _).
    unfold saveTodo. rewrite Ht, Ha, Hl. simpl.
    by destruct (editing cl) as [eid|].
Qed.

(** Witness of X23: an empty form, a form with a title only, and a form
    without labels. *)
Lemma saveTodo_reports_first_failed_check_witness :
  saveTodo sample_state sample_state
    = Alert (js "Title is required") (Ret (tt, sample_state)) /\
  (let cl := fill_form (js "Buy milk") [] [] [] [] None sample_state in
   saveTodo cl cl = Alert (js "Assignee is required") (Ret (tt, cl))) /\
  (let cl := fill_form (js "Buy milk") [] [] (js "u-bob") [] None sample_state in
   saveTodo cl cl = Alert (js "At least one label is required") (Ret (tt, cl))).
Proof.
  split; [|split].
  - by apply (saveTodo_reports_first_failed_check sample_state sample_state).
  - intros cl.
    destruct (saveTodo_reports_first_failed_check cl cl) as (_ & H & _).
    by apply H.
  - intros cl.
    destruct (saveTodo_reports_first_failed_check cl cl) as (_ & _ & H & _).
    by apply H.
Defined.
